(** * Dynamics Theme: the automatic theme scheduler of [main.py]

    A shallow embedding of [src/main.py] and the properties of its
    automatic mode: the day/night decision, the polling tick, the retry
    back-off of the schedule resolution, cancellation through the global
    [stop_event], mode selection and start-up.

    Python values are modelled as the code has them: themes and times of
    day are strings ("light", "dark", "HH:MM:SS"), [Optional] is [option],
    the registry key is a finite map from value names to DWORDs, the
    [threading.Event] objects live in a heap indexed by identity and the
    global name [stop_event] holds one such identity. *)

From Stdlib Require Import ZArith Lia Bool Ascii String.
From stdpp Require Import base option list strings gmap.

Local Open Scope string_scope.
Local Open Scope list_scope.
Local Open Scope Z_scope.

(** ** Python strings *)

Module PyStr.

(** [a < b] on [str]: lexicographic by code point, a proper prefix
    being smaller.  On UTF-8 bytes this order is the code point order. *)
Definition lt (a b : string) : bool := String.ltb a b.

(** [a == b] on [str]. *)
Definition eq (a b : string) : bool := String.eqb a b.

(** [a != b] on [Optional[str]] versus [str], as in
    [desired_theme != current_applied_theme]. *)
Definition opt_ne (a : string) (b : option string) : bool :=
  match b with
  | Some b' => negb (eq a b')
  | None => true
  end.

End PyStr.

(** ** Times of day and [strftime('%H:%M:%S')] *)

(** The time fields of a [datetime]. *)
Record clock_time : Type := ClockTime {
  hour : nat;
  minute : nat;
  second : nat
}.

(** The invariant [datetime] maintains on these fields. *)
Definition valid_time (t : clock_time) : Prop :=
  (hour t < 24)%nat /\ (minute t < 60)%nat /\ (second t < 60)%nat.

(** Seconds since local midnight: the chronological position of [t]. *)
Definition seconds_of_day (t : clock_time) : Z :=
  (Z.of_nat (hour t) * 3600 + Z.of_nat (minute t) * 60 + Z.of_nat (second t))%Z.

Definition digit (n : nat) : ascii := ascii_of_nat (48 + n).

(** [%H], [%M] and [%S]: a decimal number zero-padded to two places. *)
Definition two_digits (n : nat) : string :=
  String (digit (n / 10)) (String (digit (n mod 10)) EmptyString).

(** [t.strftime('%H:%M:%S')]. *)
Definition strftime_HMS (t : clock_time) : string :=
  two_digits (hour t) +:+ ":" +:+ two_digits (minute t) +:+ ":" +:+
  two_digits (second t).

(** ** The day/night decision (line 298)

    ["light" if sunrise < local_time < sunset else "dark"]; the chained
    comparison is the conjunction of the two strict comparisons. *)
Definition desired_theme (sunrise local_time sunset : string) : string :=
  if PyStr.lt sunrise local_time && PyStr.lt local_time sunset
  then "light" else "dark".

(** ** Dates, the local clock and the schedule strings *)

(** A [datetime] as whole seconds since [datetime.min], the midnight
    that begins 0001-01-01; [strftime] with [%S] drops the microseconds,
    so they are left out. *)
Definition datetime : Type := Z.

(** [datetime.max] lies in the last second of 9999-12-31, which is day
    3652059 of the calendar. *)
Definition datetime_max : datetime := 3652059 * 86400 - 1.

(** The instants a [datetime] can hold. *)
Definition datetime_in_range (d : Z) : bool :=
  (0 <=? d) && (d <=? datetime_max).

(** The time fields of a [datetime]. *)
Definition time_of_day (d : datetime) : clock_time :=
  let s := d mod 86400 in
  ClockTime (Z.to_nat (s / 3600)) (Z.to_nat (s / 60 mod 60)) (Z.to_nat (s mod 60)).

(** ** The world the program runs in *)

Inductive access : Type := KEY_READ | KEY_WRITE.

(** Calls into Windows and Pillow that can raise. *)
Inductive os_call : Type :=
| OpenKey (a : access)
| SetValueEx (name : string)
| QueryValueEx (name : string)
| ImageOpen (path : string)
| SendMessageW.

(** What [except Exception as e] binds. *)
Inductive exn : Type :=
| OSError (c : os_call)
| KeyError (k : string)
| OverflowError.

(** Latitude and longitude.  The program only passes them from the
    geolocation answer to the ephemeris; they are never computed with. *)
Record coords : Type := Coords { latitude : Z; longitude : Z }.

(** The environment: what each external collaborator answers when asked
    at a given instant of the logical clock (seconds, advanced by
    [time.sleep] only). *)
Record Env : Type := mkEnv {
  raises : Z -> os_call -> bool;            (* does the call raise *)
  location : Z -> option coords;            (* ipinfo.io, None on error *)
  ephemeris : Z -> coords -> option (datetime * datetime);
                                            (* next rising and setting, UTC *)
  utc_offset : Z -> option Z;               (* utcoffset(), seconds *)
  local_now : Z -> datetime;                (* datetime.now() *)
  ui_language : option string               (* GetLocaleInfoW, None on error *)
}.

(** The lines [print] writes. *)
Inductive message : Type :=
| MsgInvalidTheme (theme : string)
| MsgThemeChanged (theme : string)
| MsgErrorSettingTheme (e : exn)
| MsgErrorCurrentTheme (e : exn)
| MsgAutoDisabled
| MsgAutoEnabled
| MsgRetrying (backoff : Z)
| MsgGiveUp
| MsgStatus (sunrise local_time sunset : string).

(** What a thread does that others can observe. *)
Inductive event : Type :=
| EvPrint (m : message)
| EvApply (theme : string)                  (* set_windows_theme is entered *)
| EvRegWrite (name : string) (value : Z)
| EvIconImage (path : string)
| EvBroadcast
| EvGeoRequest                             (* the request to ipinfo.io *)
| EvSleep (seconds : Z)
| EvEventSet (e : nat)
| EvThreadStart (t : nat)
| EvThreadExit
| EvMenu (labels : list string)
| EvIconRun.

Record entry : Type := Entry { who : nat; at_time : Z; what : event }.

(** The state of the process and of Windows.  [events] is the heap of
    [threading.Event] objects (the flag of each, by identity) and
    [stop_event] the object the global name is bound to; [threads] is the
    heap of threads (is it alive), the main thread first. *)
Record World : Type := mkWorld {
  env : Env;
  registry : gmap string Z;
  icon : option string;          (* None, or the image of the pystray.Icon *)
  events : list bool;
  stop_event : nat;
  threads : list bool;
  now : Z;
  self : nat;                    (* the thread that is running *)
  pending : list (Z * string);   (* menu selections to come: instant, theme *)
  log : list entry
}.

Definition main_thread : nat := 0%nat.

Definition with_registry (f : gmap string Z -> gmap string Z) (w : World) : World :=
  mkWorld (env w) (f (registry w)) (icon w) (events w) (stop_event w)
          (threads w) (now w) (self w) (pending w) (log w).
Definition with_icon (i : option string) (w : World) : World :=
  mkWorld (env w) (registry w) i (events w) (stop_event w)
          (threads w) (now w) (self w) (pending w) (log w).
Definition with_events (f : list bool -> list bool) (w : World) : World :=
  mkWorld (env w) (registry w) (icon w) (f (events w)) (stop_event w)
          (threads w) (now w) (self w) (pending w) (log w).
Definition with_stop_event (e : nat) (w : World) : World :=
  mkWorld (env w) (registry w) (icon w) (events w) e
          (threads w) (now w) (self w) (pending w) (log w).
Definition with_threads (f : list bool -> list bool) (w : World) : World :=
  mkWorld (env w) (registry w) (icon w) (events w) (stop_event w)
          (f (threads w)) (now w) (self w) (pending w) (log w).
Definition with_now (t : Z) (w : World) : World :=
  mkWorld (env w) (registry w) (icon w) (events w) (stop_event w)
          (threads w) t (self w) (pending w) (log w).
Definition with_self (t : nat) (w : World) : World :=
  mkWorld (env w) (registry w) (icon w) (events w) (stop_event w)
          (threads w) (now w) t (pending w) (log w).
Definition with_pending (p : list (Z * string)) (w : World) : World :=
  mkWorld (env w) (registry w) (icon w) (events w) (stop_event w)
          (threads w) (now w) (self w) p (log w).
Definition with_log (f : list entry -> list entry) (w : World) : World :=
  mkWorld (env w) (registry w) (icon w) (events w) (stop_event w)
          (threads w) (now w) (self w) (pending w) (f (log w)).

(** ** The monad of the program: state, exceptions and loop fuel *)

Inductive outcome (A : Type) : Type :=
| Ret (a : A)          (* the call returned [a] *)
| Raise (e : exn)      (* the call raised *)
| OutOfFuel.           (* a loop is still running when the fuel ends *)
Arguments Ret {A} a.
Arguments Raise {A} e.
Arguments OutOfFuel {A}.

Definition M (A : Type) : Type := World -> outcome A * World.

#[export] Instance M_ret : MRet M := fun A a w => (Ret a, w).
#[export] Instance M_bind : MBind M := fun A B f m w =>
  match m w with
  | (Ret a, w') => f a w'
  | (Raise e, w') => (Raise e, w')
  | (OutOfFuel, w') => (OutOfFuel, w')
  end.

Definition raise {A} (e : exn) : M A := fun w => (Raise e, w).
Definition out_of_fuel {A} : M A := fun w => (OutOfFuel, w).
Definition gets {A} (f : World -> A) : M A := fun w => (Ret (f w), w).
Definition modify (f : World -> World) : M unit := fun w => (Ret tt, f w).

(** [try: body except Exception as e: handler e]. *)
Definition try_except {A} (body : M A) (handler : exn -> M A) : M A := fun w =>
  match body w with
  | (Raise e, w') => handler e w'
  | r => r
  end.

(** [w] after the running thread has written [ev] to the log. *)
Definition logged (ev : event) (w : World) : World :=
  with_log (fun l => l ++ [Entry (self w) (now w) ev]) w.

Definition emit (ev : event) : M unit := modify (logged ev).

Definition print (m : message) : M unit := emit (EvPrint m).

(** A call that raises when the environment says so. *)
Definition os (c : os_call) : M unit := fun w =>
  if raises (env w) (now w) c then (Raise (OSError c), w) else (Ret tt, w).

(** ** [threading.Event] and [threading.Thread] *)

(** [threading.Event()]: a new object, its flag clear. *)
Definition new_event : M nat := fun w =>
  (Ret (length (events w)), with_events (fun h => h ++ [false]) w).

(** [stop_event.set()]: the global name is looked up when the call runs. *)
Definition stop_event_set : M unit :=
  e ← gets stop_event;
  modify (with_events <[e := true]>);;
  emit (EvEventSet e).

(** [stop_event.is_set()]: the global name is looked up when the call runs. *)
Definition stop_event_is_set : M bool :=
  e ← gets stop_event;
  gets (fun w => default false (events w !! e)).

(** [threading.Thread(target=automatic_theme, daemon=True).start()]. *)
Definition thread_start : M nat :=
  t ← gets (fun w => length (threads w));
  modify (with_threads (fun h => h ++ [true]));;
  emit (EvThreadStart t);;
  mret t.

(** The threads of heap [h] that are alive, the first having identity [t]. *)
Fixpoint alive_from (t : nat) (h : list bool) : list nat :=
  match h with
  | [] => []
  | b :: h' => (if b then [t] else []) ++ alive_from (S t) h'
  end.

(** The run-loops that were started and have not returned: every live
    thread but the main one. *)
Definition live_loops (w : World) : list nat :=
  alive_from 1 (tail (threads w)).

(** ** [set_windows_theme] (lines 86-121) *)

Definition SetValue (name : string) (value : Z) : M unit :=
  os (SetValueEx name);;
  modify (with_registry <[name := value]>);;
  emit (EvRegWrite name value).

Definition Image_open (path : string) : M string :=
  os (ImageOpen path);; mret path.

Definition set_windows_theme (theme : string) : M bool :=
  emit (EvApply theme);;
  try_except
    (os (OpenKey KEY_WRITE);;
     choice ← (if PyStr.eq theme "light" then
                 mret (Some (1, "lib/icon_light.png"))
               else if PyStr.eq theme "dark" then
                 mret (Some (0, "lib/icon_dark.png"))
               else
                 print (MsgInvalidTheme theme);; mret None);
     match choice with
     | None => mret false
     | Some (theme_value, icon_path) =>
         SetValue "AppsUseLightTheme" theme_value;;
         SetValue "SystemUsesLightTheme" theme_value;;
         i ← gets icon;
         (if i is Some _ then
            img ← Image_open icon_path;
            modify (with_icon (Some img));;
            emit (EvIconImage img)
          else mret tt);;
         os SendMessageW;;
         emit EvBroadcast;;
         print (MsgThemeChanged theme);;
         mret true
     end)
    (fun e => print (MsgErrorSettingTheme e);; mret false).

(** ** [get_system_language] (lines 124-147)

    The answer of [GetLocaleInfoW], cut to two letters and lower-cased,
    is the environment's; a failed call or an exception gives ['en']. *)
Definition get_system_language : M string :=
  gets (fun w => default "en" (ui_language (env w))).

(** ** [get_current_theme] (lines 150-162) *)
Definition get_current_theme : M (option Z) :=
  try_except
    (os (OpenKey KEY_READ);;
     os (QueryValueEx "AppsUseLightTheme");;
     v ← gets (fun w => registry w !! "AppsUseLightTheme");
     match v with
     | Some value => mret (Some value)
     | None => raise (OSError (QueryValueEx "AppsUseLightTheme"))
     end)
    (fun e => print (MsgErrorCurrentTheme e);; mret None).

(** ** Schedule resolution (lines 165-240)

    Each of the three helpers answers [None] when it fails; the line it
    prints then (lines 178, 200 and 222) is not recorded in the log. *)

(** [get_location]: the request to ipinfo.io and its answer. *)
Definition get_location : M (option coords) :=
  emit EvGeoRequest;;
  gets (fun w => location (env w) (now w)).

(** [get_sunrise_and_sunset]: the ephemeris, [None] when it raises. *)
Definition get_sunrise_and_sunset (c : coords) : M (option (datetime * datetime)) :=
  gets (fun w => ephemeris (env w) (now w) c).

(** [d + delta] for a [timedelta] of [delta] seconds: the sum, or
    [OverflowError] when it is not a [datetime]. *)
Definition datetime_add (d : datetime) (delta : Z) : M datetime :=
  if datetime_in_range (d + delta) then mret (d + delta)
  else raise OverflowError.

(** [sun_time_local] (lines 204-223): an addition that overflows is
    caught by the handler, which returns [None]. *)
Definition sun_time_local (sunrise_datetime_utc sunset_datetime_utc : datetime)
  : M (option (string * string)) :=
  try_except
    (local_offset ← gets (fun w => utc_offset (env w) (now w));
     match local_offset with
     | None => mret None
     | Some off =>
         sunrise_time_local ← datetime_add sunrise_datetime_utc off;
         sunset_time_local ← datetime_add sunset_datetime_utc off;
         mret (Some (strftime_HMS (time_of_day sunrise_time_local),
                     strftime_HMS (time_of_day sunset_time_local)))
     end)
    (fun e => mret None).

Definition automatic_data : M (option (string * string)) :=
  loc ← get_location;
  match loc with
  | None => mret None
  | Some c =>
      sun ← get_sunrise_and_sunset c;
      match sun with
      | None => mret None
      | Some (sunrise_datetime_utc, sunset_datetime_utc) =>
          sun_time_local sunrise_datetime_utc sunset_datetime_utc
      end
  end.

(** ** [get_local_time] (lines 243-249) *)
Definition get_local_time : M string :=
  gets (fun w => strftime_HMS (time_of_day (local_now (env w) (now w)))).

(** ** [start_automatic] and [select_theme] (lines 252-272) *)

Definition start_automatic : M unit :=
  print MsgAutoEnabled;;
  e ← new_event;
  modify (with_stop_event e);;
  _ ← thread_start;
  mret tt.

Definition select_theme (theme : string) : M unit :=
  stop_event_set;;
  if PyStr.eq theme "auto" then
    start_automatic
  else
    print MsgAutoDisabled;;
    _ ← set_windows_theme theme;
    mret tt.

(** ** [time.sleep]

    The calling thread is suspended for the whole duration; nothing the
    other threads do shortens it.  Meanwhile the main thread serves the
    menu: the selections due before the wake-up run, in order, each at
    its own instant. *)

Fixpoint due_until (wake : Z) (p : list (Z * string)) : list (Z * string) :=
  match p with
  | (t, theme) :: rest =>
      if t <=? wake then (t, theme) :: due_until wake rest else []
  | [] => []
  end.

Fixpoint run_callbacks (due : list (Z * string)) : M unit :=
  match due with
  | [] => mret tt
  | (t, theme) :: rest =>
      modify (fun w => with_now (Z.max (now w) t) w);;
      select_theme theme;;
      run_callbacks rest
  end.

Definition time_sleep (seconds : Z) : M unit := fun w =>
  let wake := now w + seconds in
  let due := due_until wake (pending w) in
  (emit (EvSleep seconds);;
   modify (with_pending (drop (length due) (pending w)));;
   modify (with_self main_thread);;
   run_callbacks due;;
   modify (with_self (self w));;
   modify (with_now wake)) w.

(** ** [automatic_theme] (lines 275-305) *)

(** The body of the polling loop up to its sleep (lines 295-303); the
    value is the loop's [current_applied_theme] afterwards. *)
Definition tick (sunrise sunset : string) (current_applied_theme : option string)
  : M (option string) :=
  local_time ← get_local_time;
  print (MsgStatus sunrise local_time sunset);;
  let desired := desired_theme sunrise local_time sunset in
  if PyStr.opt_ne desired current_applied_theme then
    ok ← set_windows_theme desired;
    if ok : bool then mret (Some desired) else mret current_applied_theme
  else mret current_applied_theme.

(** The first loop (lines 281-285), entered with [sun_times] of the first
    attempt; the value is [sun_times] when the loop is left. *)
Fixpoint resolve_loop (fuel : nat) (backoff max_backoff : Z)
    (sun_times : option (string * string)) : M (option (string * string)) :=
  match sun_times with
  | Some _ => mret sun_times
  | None =>
      stopped ← stop_event_is_set;
      if stopped : bool then mret sun_times else
      match fuel with
      | O => out_of_fuel
      | S fuel' =>
          print (MsgRetrying backoff);;
          time_sleep backoff;;
          let backoff := Z.min (backoff * 2) max_backoff in
          sun_times ← automatic_data;
          resolve_loop fuel' backoff max_backoff sun_times
      end
  end.

(** The second loop (lines 294-305). *)
Fixpoint poll_loop (fuel : nat) (sunrise sunset : string)
    (current_applied_theme : option string) : M unit :=
  stopped ← stop_event_is_set;
  if stopped : bool then mret tt else
  match fuel with
  | O => out_of_fuel
  | S fuel' =>
      current_applied_theme ← tick sunrise sunset current_applied_theme;
      time_sleep 60;;
      poll_loop fuel' sunrise sunset current_applied_theme
  end.

Definition automatic_theme (fuel : nat) : M unit :=
  let backoff := 30 in
  let max_backoff := 600 in
  sun_times ← automatic_data;
  sun_times ← resolve_loop fuel backoff max_backoff sun_times;
  match sun_times with
  | None => print MsgGiveUp
  | Some (sunrise, sunset) =>
      let current_applied_theme := None in
      poll_loop fuel sunrise sunset current_applied_theme
  end.

(** One attempt and the retries after it: lines 279-285 for the back-off
    [backoff], and lines 285 and 281-285 again after each sleep. *)
Definition attempt_loop (fuel : nat) (backoff max_backoff : Z)
  : M (option (string * string)) :=
  sun_times ← automatic_data;
  resolve_loop fuel backoff max_backoff sun_times.

(** Thread [t] runs its target and ends when the target returns. *)
Definition run_thread (t : nat) (fuel : nat) : M unit :=
  modify (with_self t);;
  automatic_theme fuel;;
  emit EvThreadExit;;
  modify (with_threads <[t := false]>).

(** ** [TRANSLATIONS] and [get_translations] (lines 19-80, 308-317) *)

Definition translation (dark light automatic exit : string) : gmap string string :=
  list_to_map [("dark", dark); ("light", light);
               ("automatic", automatic); ("exit", exit)].

Definition TRANSLATIONS : gmap string (gmap string string) :=
  list_to_map
    [("en", translation "Dark ☾" "Light ☼" "Automatic" "Exit");
     ("ru", translation "Тёмная ☾" "Светлая ☼" "Автоматическая" "Закрыть");
     ("es", translation "Oscuro ☾" "Claro ☼" "Automático" "Salir");
     ("de", translation "Dunkel ☾" "Hell ☼" "Automatisch" "Beenden");
     ("fr", translation "Sombre ☾" "Clair ☼" "Automatique" "Quitter");
     ("it", translation "Scuro ☾" "Chiaro ☼" "Automatico" "Esci");
     ("pt", translation "Escuro ☾" "Claro ☼" "Automático" "Sair");
     ("zh", translation "深色 ☾" "浅色 ☼" "自动" "退出");
     ("ja", translation "ダーク ☾" "ライト ☼" "自動" "終了");
     ("ko", translation "어두운 ☾" "밝은 ☼" "자동" "종료")].

(** [TRANSLATIONS.get(language, TRANSLATIONS['en'])]. *)
Definition get_translations (language : string) : gmap string string :=
  default (default ∅ (TRANSLATIONS !! "en")) (TRANSLATIONS !! language).

(** [translations[k]], a [KeyError] when the key is missing. *)
Definition subscript (translations : gmap string string) (k : string) : M string :=
  match translations !! k with
  | Some v => mret v
  | None => raise (KeyError k)
  end.

(** ** [create_tray_icon] (lines 320-343)

    The menu is the list of its labels; the callbacks behind them are
    [select_theme] on 'dark', 'light' and 'auto', and [hide_icon]. *)
Definition create_tray_icon : M unit :=
  current_theme ← get_current_theme;
  match current_theme with
  | None => mret tt
  | Some value =>
      let icon_path :=
        "lib/icon_" +:+ (if value =? 0 then "dark" else "light") +:+ ".png" in
      img ← Image_open icon_path;
      modify (with_icon (Some img));;
      language ← get_system_language;
      let translations := get_translations language in
      dark ← subscript translations "dark";
      light ← subscript translations "light";
      automatic ← subscript translations "automatic";
      exit ← subscript translations "exit";
      emit (EvMenu [dark; light; automatic; exit]);;
      start_automatic;;
      emit EvIconRun
  end.

(** ** Worlds to run the program in *)

(** A machine on which nothing fails: the network answers, every call
    into Windows succeeds, the UTC offset is [off]. *)
Definition calm_env (sun : datetime * datetime) (off : Z)
    (clock : Z -> datetime) : Env :=
  mkEnv (fun _ _ => false) (fun _ => Some (Coords 0 0))
        (fun _ _ => Some sun) (fun _ => Some off) clock (Some "en").

(** The process as the module has just been loaded: one [Event], clear,
    bound to [stop_event]; no icon; only the main thread. *)
Definition boot (e : Env) (reg : gmap string Z) (menu : list (Z * string)) : World :=
  mkWorld e reg None [false] 0%nat [true] 0 main_thread menu [].

(** What thread [t] did, in order. *)
Definition events_of (t : nat) (l : list entry) : list event :=
  map what (filter (fun x => who x = t) l).

(** The themes [set_windows_theme] was called with, in order. *)
Fixpoint applied_themes (evs : list event) : list string :=
  match evs with
  | EvApply theme :: rest => theme :: applied_themes rest
  | _ :: rest => applied_themes rest
  | [] => []
  end.

(** The number of requests to ipinfo.io: one for each attempt. *)
Fixpoint attempts (evs : list event) : nat :=
  match evs with
  | EvGeoRequest :: rest => S (attempts rest)
  | _ :: rest => attempts rest
  | [] => O
  end.

(** The durations [time.sleep] was called with, in order. *)
Fixpoint sleeps (evs : list event) : list Z :=
  match evs with
  | EvSleep s :: rest => s :: sleeps rest
  | _ :: rest => sleeps rest
  | [] => []
  end.

(** A machine on which every call into Windows raises. *)
Definition locked_env (sun : datetime * datetime) (off : Z)
    (clock : Z -> datetime) : Env :=
  mkEnv (fun _ _ => true) (fun _ => Some (Coords 0 0))
        (fun _ _ => Some sun) (fun _ => Some off) clock (Some "en").

(** The process once [start_automatic] has run for the first time, seen
    from the thread it started. *)
Definition started (e : Env) (reg : gmap string Z) (menu : list (Z * string)) : World :=
  with_self 1%nat (snd (start_automatic (boot e reg menu))).

(** A [datetime] of the first day from its time fields. *)
Definition hms (h m s : Z) : datetime := h * 3600 + m * 60 + s.

(** Noon at every instant: between sunrise 06:30:00 and sunset 20:15:00. *)
Definition noon : Z -> datetime := fun _ => hms 12 0 0.

(** Sunrise 06:30:00, sunset 20:15:00, noon on the clock; every call into
    Windows succeeds, or every call raises. *)
Definition calm_noon : Env := calm_env (hms 6 30 0, hms 20 15 0) 0 noon.
Definition locked_noon : Env := locked_env (hms 6 30 0, hms 20 15 0) 0 noon.

(** The network is down until instant 90, then the sun rises at 06:30:00
    and sets at 20:15:00. *)
Definition flaky_env : Env :=
  mkEnv (fun _ _ => false)
        (fun t => if t <? 90 then None else Some (Coords 0 0))
        (fun _ _ => Some (hms 6 30 0, hms 20 15 0)) (fun _ => Some 0)
        noon (Some "en").

(** The network is down for good. *)
Definition offline_env : Env :=
  mkEnv (fun _ _ => false) (fun _ => None)
        (fun _ _ => Some (hms 6 30 0, hms 20 15 0)) (fun _ => Some 0)
        noon (Some "en").

(** The process after start-up on these two machines, nobody at the menu. *)
Definition calm_machine : World := started calm_noon ∅ [].
Definition locked_machine : World := started locked_noon ∅ [].

(** The user picks 'dark' at instant 10, on a machine where all goes well
    and on one that is off the network. *)
Definition online : World := started calm_noon ∅ [(10, "dark")].
Definition offline : World := started offline_env ∅ [(10, "dark")].

(** The user picks 'auto' at instant 5 and then 'dark' at instant 10, on
    the machine where all goes well. *)
Definition undecided : World := started calm_noon ∅ [(5, "auto"); (10, "dark")].

(** Two ticks of the polling loop with the sleep between them. *)
Definition two_ticks (sunrise sunset : string) (applied : option string)
  : M (option string) :=
  a ← tick sunrise sunset applied;
  time_sleep 60;;
  tick sunrise sunset a.

(** ** What is observed of a run, and the words of the specification *)

(** The order of the two-digit strings against the order of the numbers,
    checked on every pair below 100. *)
Definition two_digits_table_ok : bool :=
  forallb (fun m => forallb (fun n =>
    match String.compare (two_digits m) (two_digits n), Nat.compare m n with
    | Eq, Eq | Lt, Lt | Gt, Gt => true
    | _, _ => false
    end) (seq 0 100)) (seq 0 100).

(** Unfolds the monad's operations, primitives first. *)
Ltac run_monad :=
  unfold print, emit, logged, os, gets, modify, try_except, raise, out_of_fuel,
    mbind, M_bind, mret, M_ret in *.

(** Rewrites with what is known of the environment's answers. *)
Ltac rewrite_raises :=
  repeat match goal with
  | H : raises ?e ?t ?c = _ |- context [raises ?e ?t ?c] => rewrite H
  | H : icon ?w = _ |- context [icon ?w] => rewrite H
  end.

(** The log entries written between two worlds of one run. *)
Definition since (w w' : World) : list entry :=
  drop (length (log w)) (log w').

(** The calls of [set_windows_theme] thread [t] made between two worlds. *)
Definition calls_during (t : nat) (w w' : World) : list string :=
  applied_themes (events_of t (since w w')).

(** What a call leaves alone when it neither sleeps nor touches the
    events and threads. *)
Definition same_control (w w' : World) : Prop :=
  env w' = env w /\ events w' = events w /\ stop_event w' = stop_event w /\
  threads w' = threads w /\ now w' = now w /\ self w' = self w /\
  pending w' = pending w.

(** The registry value and the icon a theme name stands for. *)
Definition theme_choice (theme : string) : option (Z * string) :=
  if PyStr.eq theme "light" then Some (1, "lib/icon_light.png")
  else if PyStr.eq theme "dark" then Some (0, "lib/icon_dark.png")
  else None.

(** The calls [set_windows_theme] makes, in order, when none raises. *)
Definition write_path (theme : string) (w : World) : list os_call :=
  OpenKey KEY_WRITE ::
  match theme_choice theme with
  | None => []
  | Some (_, icon_path) =>
      [SetValueEx "AppsUseLightTheme"; SetValueEx "SystemUsesLightTheme"] ++
      (if icon w is Some _ then [ImageOpen icon_path] else []) ++
      [SendMessageW]
  end.

(** The theme is one of the two and no call of the write path raises. *)
Definition write_path_clear (theme : string) (w : World) : bool :=
  (if theme_choice theme is Some _ then true else false) &&
  forallb (fun c => negb (raises (env w) (now w) c)) (write_path theme w).

(** The effects of the write path: registry writes, the icon update and
    the settings broadcast. *)
Definition is_write (ev : event) : bool :=
  match ev with
  | EvRegWrite _ _ | EvIconImage _ | EvBroadcast => true
  | _ => false
  end.

(** What [get_local_time] returns in [w]. *)
Definition local_time_of (w : World) : string :=
  strftime_HMS (time_of_day (local_now (env w) (now w))).

(** The desired theme a tick computes in [w]. *)
Definition desired_in (sunrise sunset : string) (w : World) : string :=
  desired_theme sunrise (local_time_of w) sunset.

(** A selection of 'light' or 'dark' (any theme but 'auto'). *)
Definition manual (p : Z * string) : Prop := p.2 <> "auto".

(** The waits as the specification words them: 30 first, then each
    [min(previous*2, 600)]. *)
Fixpoint backoff_seq (k : nat) : Z :=
  match k with
  | O => 30
  | S k' => Z.min (backoff_seq k' * 2) 600
  end.

(** The instant reached from [t] after [k] waits, the first of them
    being wait number [j]. *)
Fixpoint retry_time (j : nat) (t : Z) (k : nat) : Z :=
  match k with
  | O => t
  | S k' => retry_time (S j) (t + backoff_seq j) k'
  end.

(** What [automatic_data] returns when called at instant [t]. *)
Definition resolves_at (e : Env) (t : Z) : option (string * string) :=
  match location e t with
  | None => None
  | Some c =>
      match ephemeris e t c with
      | None => None
      | Some (sunrise_utc, sunset_utc) =>
          match utc_offset e t with
          | None => None
          | Some off =>
              if datetime_in_range (sunrise_utc + off) &&
                 datetime_in_range (sunset_utc + off)
              then Some (strftime_HMS (time_of_day (sunrise_utc + off)),
                         strftime_HMS (time_of_day (sunset_utc + off)))
              else None
          end
      end
  end.

(** The times [get_local_time] returned, read off the status lines. *)
Fixpoint clock_reads (evs : list event) : list string :=
  match evs with
  | EvPrint (MsgStatus _ local_time _) :: rest => local_time :: clock_reads rest
  | _ :: rest => clock_reads rest
  | [] => []
  end.

(** The desired theme of each tick, from the same status lines. *)
Fixpoint desired_themes (evs : list event) : list string :=
  match evs with
  | EvPrint (MsgStatus sunrise local_time sunset) :: rest =>
      desired_theme sunrise local_time sunset :: desired_themes rest
  | _ :: rest => desired_themes rest
  | [] => []
  end.

(** The calls of [set_windows_theme] by thread [t]: instant and theme. *)
Fixpoint calls_at (t : nat) (l : list entry) : list (Z * string) :=
  match l with
  | Entry t' i (EvApply theme) :: rest =>
      if decide (t' = t) then (i, theme) :: calls_at t rest else calls_at t rest
  | _ :: rest => calls_at t rest
  | [] => []
  end.

(** Sunrise 06:30:00, sunset 20:15:00; the clock reads 06:29:59,
    06:30:01, 20:14:59 and 20:15:00 at the four ticks; every call into
    Windows succeeds; the user picks 'dark' during the fourth sleep, which
    ends the loop. *)
Definition four_ticks : World :=
  started
    (calm_env (hms 6 30 0, hms 20 15 0) 0
       (fun t => if t =? 0 then hms 6 29 59
                 else if t =? 60 then hms 6 30 1
                 else if t =? 120 then hms 20 14 59
                 else hms 20 15 0))
    ∅ [(200, "dark")].

(** The rest of [automatic_theme] for a loop that is at the sleep of the
    polling loop (line 305). *)
Definition resume_tick_sleep (fuel : nat) (sunrise sunset : string)
    (current_applied_theme : option string) : M unit :=
  time_sleep 60;;
  poll_loop fuel sunrise sunset current_applied_theme.

(** The rest of [automatic_theme] for a loop that is at the sleep of the
    first loop (line 283) with back-off [backoff]. *)
Definition resume_backoff_sleep (fuel1 fuel2 : nat) (backoff : Z) : M unit :=
  time_sleep backoff;;
  sun_times ← attempt_loop fuel1 (Z.min (backoff * 2) 600) 600;
  match sun_times with
  | None => print MsgGiveUp
  | Some (sunrise, sunset) => poll_loop fuel2 sunrise sunset None
  end.

(** The instants at which the flag is set, the sleeps begin and the
    threads end. *)
Fixpoint timeline (l : list entry) : list entry :=
  match l with
  | Entry t i (EvEventSet e) :: rest => Entry t i (EvEventSet e) :: timeline rest
  | Entry t i (EvSleep s) :: rest => Entry t i (EvSleep s) :: timeline rest
  | Entry t i EvThreadExit :: rest => Entry t i EvThreadExit :: timeline rest
  | _ :: rest => timeline rest
  | [] => []
  end.

(** ** Further observations of a run *)

(** What the polling loop for the schedule [sunrise], [sunset] may write
    to the log itself: its status line with that schedule, calls of
    [set_windows_theme] on 'light' or 'dark' with their effects and
    reports, and sleeps of 60 s. *)
Definition polling_event (sunrise sunset : string) (ev : event) : bool :=
  match ev with
  | EvPrint (MsgStatus a _ b) => PyStr.eq a sunrise && PyStr.eq b sunset
  | EvPrint (MsgThemeChanged _) | EvPrint (MsgErrorSettingTheme _) => true
  | EvApply theme => PyStr.eq theme "light" || PyStr.eq theme "dark"
  | EvRegWrite _ _ | EvIconImage _ | EvBroadcast => true
  | EvSleep s => s =? 60
  | _ => false
  end.

(** What the first loop may write to the log itself: requests to
    ipinfo.io, retry notices and sleeps. *)
Definition resolving_event (ev : event) : bool :=
  match ev with
  | EvGeoRequest | EvSleep _ | EvPrint (MsgRetrying _) => true
  | _ => false
  end.

(** Each theme of [l] differs from the one before it, [prev] being the
    one before the first. *)
Fixpoint changes (prev : option string) (l : list string) : Prop :=
  match l with
  | [] => True
  | theme :: rest => prev <> Some theme /\ changes (Some theme) rest
  end.

(** The labels of the menu, as [create_tray_icon] hands them to pystray. *)
Fixpoint menus (evs : list event) : list (list string) :=
  match evs with
  | EvMenu labels :: rest => labels :: menus rest
  | _ :: rest => menus rest
  | [] => []
  end.

(** How the first loop ends, and what it has done by then, when it is
    entered at wait number [j]. *)
Definition resolution_ends (j fuel m : nat) (w : World)
    (r : outcome (option (string * string))) (l : list entry) (w' : World) : Prop :=
  (m <= fuel)%nat /\
  match r with
  | Ret (Some s) => resolves_at (env w') (now w') = Some s
  | Ret None => events w' !! stop_event w' = Some true
  | OutOfFuel => m = fuel
  | Raise _ => False
  end /\
  env w' = env w /\ self w' = self w /\ log w' = log w ++ l /\
  Forall (fun ev => resolving_event ev = true) (events_of (self w) l) /\
  sleeps (events_of (self w) l) = map backoff_seq (seq j m) /\
  attempts (events_of (self w) l) = S m /\
  now w' = retry_time j (now w) m.

(** * Properties *)

(** ** String order *)

Section StringOrder.

Lemma compare_refl (s : string) : String.compare s s = Eq.
Proof.
  induction s as [|c s IH]; simpl; [reflexivity|].
  unfold Ascii.compare. rewrite N.compare_refl. exact IH.
Qed.

Lemma lt_irrefl (s : string) : PyStr.lt s s = false.
Proof. unfold PyStr.lt, String.ltb. by rewrite compare_refl. Qed.

(** Comparing two strings that start with blocks of the same length
    compares the blocks first. *)
Lemma compare_app (a b s t : string) :
  String.length a = String.length b ->
  String.compare (a +:+ s) (b +:+ t) =
    match String.compare a b with
    | Eq => String.compare s t
    | c => c
    end.
Proof.
  revert b. induction a as [|x a IH]; intros [|y b] Hlen; simpl in *;
    try discriminate; [reflexivity|].
  destruct (Ascii.compare x y); try reflexivity.
  apply IH. congruence.
Qed.

Lemma two_digits_compare (m n : nat) :
  (m < 100)%nat -> (n < 100)%nat ->
  String.compare (two_digits m) (two_digits n) = Nat.compare m n.
Proof.
  intros Hm Hn.
  assert (Htab : two_digits_table_ok = true) by (vm_compute; reflexivity).
  unfold two_digits_table_ok in Htab.
  rewrite List.forallb_forall in Htab.
  specialize (Htab m). rewrite List.forallb_forall in Htab.
  assert (Hin : forall k, (k < 100)%nat -> In k (seq 0 100))
    by (intros k Hk; apply in_seq; lia).
  specialize (Htab (Hin m Hm) n (Hin n Hn)).
  destruct (String.compare _ _), (Nat.compare m n); congruence.
Qed.

(** The order of the strings is the order of the field triples. *)
Lemma strftime_compare (a b : clock_time) :
  valid_time a -> valid_time b ->
  String.compare (strftime_HMS a) (strftime_HMS b) =
    match Nat.compare (hour a) (hour b) with
    | Eq => match Nat.compare (minute a) (minute b) with
            | Eq => Nat.compare (second a) (second b)
            | c => c
            end
    | c => c
    end.
Proof.
  intros (Ha1 & Ha2 & Ha3) (Hb1 & Hb2 & Hb3). unfold strftime_HMS.
  rewrite compare_app by reflexivity.
  rewrite two_digits_compare by lia.
  destruct (Nat.compare (hour a) (hour b)); try reflexivity.
  rewrite (compare_app ":" ":") by reflexivity. simpl (String.compare ":" ":").
  rewrite compare_app by reflexivity.
  rewrite two_digits_compare by lia.
  destruct (Nat.compare (minute a) (minute b)); try reflexivity.
  rewrite (compare_app ":" ":") by reflexivity. simpl (String.compare ":" ":").
  apply two_digits_compare; lia.
Qed.

Lemma strftime_lt (a b : clock_time) :
  valid_time a -> valid_time b ->
  PyStr.lt (strftime_HMS a) (strftime_HMS b) = true <->
  seconds_of_day a < seconds_of_day b.
Proof.
  intros Ha Hb. unfold PyStr.lt, String.ltb.
  rewrite strftime_compare by assumption.
  destruct Ha as (Ha1 & Ha2 & Ha3), Hb as (Hb1 & Hb2 & Hb3).
  unfold seconds_of_day.
  destruct (Nat.compare_spec (hour a) (hour b)) as [Hh|Hh|Hh];
    [|split; [lia|reflexivity]|split; [discriminate|lia]].
  destruct (Nat.compare_spec (minute a) (minute b)) as [Hm|Hm|Hm];
    [|split; [lia|reflexivity]|split; [discriminate|lia]].
  destruct (Nat.compare_spec (second a) (second b)) as [Hs|Hs|Hs];
    [split; [discriminate|lia]|split; [lia|reflexivity]
    |split; [discriminate|lia]].
Qed.

Lemma time_of_day_valid (d : datetime) : valid_time (time_of_day d).
Proof.
  unfold valid_time, time_of_day; simpl.
  assert (H : 0 <= d mod 86400 < 86400) by (apply Z.mod_pos_bound; lia).
  set (s := d mod 86400) in *.
  repeat split; Z.to_euclidean_division_equations; lia.
Qed.

Lemma seconds_of_time_of_day (d : datetime) :
  seconds_of_day (time_of_day d) = d mod 86400.
Proof.
  unfold seconds_of_day, time_of_day; simpl.
  assert (H : 0 <= d mod 86400 < 86400) by (apply Z.mod_pos_bound; lia).
  set (s := d mod 86400) in *.
  Z.to_euclidean_division_equations; lia.
Qed.

End StringOrder.

(** ** The log of a run *)

Section LogLemmas.

Lemma since_app (w w' : World) (l : list entry) :
  log w' = log w ++ l -> since w w' = l.
Proof. intros H. unfold since. rewrite H. apply drop_app_length. Qed.

Lemma events_of_app (t : nat) (l1 l2 : list entry) :
  events_of t (l1 ++ l2) = events_of t l1 ++ events_of t l2.
Proof. unfold events_of. by rewrite filter_app, map_app. Qed.

Lemma events_of_own (t : nat) (l : list entry) :
  Forall (fun x => who x = t) l -> events_of t l = map what l.
Proof.
  unfold events_of. induction 1 as [|x l Hx Hl IH]; [reflexivity|].
  rewrite filter_cons_True by assumption. simpl. by rewrite IH.
Qed.

Lemma events_of_other (t : nat) (l : list entry) :
  Forall (fun x => who x <> t) l -> events_of t l = [].
Proof.
  unfold events_of. induction 1 as [|x l Hx Hl IH]; [reflexivity|].
  rewrite filter_cons_False by assumption. exact IH.
Qed.

Lemma events_of_foreign (t : nat) (l : list entry) :
  t <> main_thread -> Forall (fun x => who x = main_thread) l ->
  events_of t l = [].
Proof.
  intros Ht Hl. apply events_of_other. eapply Forall_impl; [exact Hl|].
  simpl. intros x -> Heq. apply Ht. symmetry. exact Heq.
Qed.

Lemma applied_themes_app (l1 l2 : list event) :
  applied_themes (l1 ++ l2) = applied_themes l1 ++ applied_themes l2.
Proof.
  induction l1 as [|e l1 IH]; [reflexivity|].
  destruct e; simpl; rewrite IH; reflexivity.
Qed.

Lemma sleeps_app (l1 l2 : list event) :
  sleeps (l1 ++ l2) = sleeps l1 ++ sleeps l2.
Proof.
  induction l1 as [|e l1 IH]; [reflexivity|].
  destruct e; simpl; rewrite IH; reflexivity.
Qed.

End LogLemmas.

(** ** [set_windows_theme] *)

Section SetWindowsTheme.

Lemma set_windows_theme_run (theme : string) (w : World) :
  exists l w',
    set_windows_theme theme w = (Ret (write_path_clear theme w), w') /\
    same_control w w' /\
    log w' = log w ++ Entry (self w) (now w) (EvApply theme) :: l /\
    Forall (fun x => who x = self w) l /\
    applied_themes (map what l) = [] /\ sleeps (map what l) = [].
Proof.
  unfold set_windows_theme, write_path_clear, write_path, theme_choice, SetValue,
    Image_open, same_control.
  run_monad. simpl.
  repeat (case_match; simpl in *; simplify_eq); rewrite_raises; simpl;
    eexists _, _; (split; [reflexivity|]); simpl;
    (split; [tauto|]); rewrite <- ?(assoc_L (++)); simpl;
    (split; [reflexivity|]); (split; [repeat constructor|]);
    split; reflexivity.
Qed.

Lemma theme_choice_valid (theme : string) :
  is_Some (theme_choice theme) <-> theme = "light" \/ theme = "dark".
Proof.
  unfold theme_choice, PyStr.eq.
  destruct (String.eqb_spec theme "light") as [->|Hl];
    [split; [intros _; by left | intros _; by eexists]|].
  destruct (String.eqb_spec theme "dark") as [->|Hd];
    [split; [intros _; by right | intros _; by eexists]|].
  split; [intros [x Hx]; discriminate | intros [?|?]; contradiction].
Qed.

(** The result does not depend on what was logged before. *)
Lemma write_path_clear_log (theme : string) (f : list entry -> list entry)
    (w : World) :
  write_path_clear theme (with_log f w) = write_path_clear theme w.
Proof. reflexivity. Qed.

(** C10: a theme other than 'light' and 'dark' makes [set_windows_theme]
    return [False] without a registry write, an icon update or the
    settings broadcast; and whatever the theme, the call returns (no
    exception leaves it), with [False] as soon as one call of the write
    path raises. *)
Theorem set_windows_theme_invalid_or_raising (theme : string) (w : World) :
  (theme <> "light" -> theme <> "dark" ->
   exists w',
     set_windows_theme theme w = (Ret false, w') /\
     registry w' = registry w /\ icon w' = icon w /\
     Forall (fun x => is_write (what x) = false) (since w w')) /\
  (exists b w',
     set_windows_theme theme w = (Ret b, w') /\
     (forall c, In c (write_path theme w) ->
                raises (env w) (now w) c = true -> b = false) /\
     (b = true -> theme = "light" \/ theme = "dark")).
Proof.
  split.
  - intros Hl Hd.
    apply String.eqb_neq in Hl, Hd.
    unfold set_windows_theme. run_monad. simpl.
    unfold PyStr.eq. rewrite Hl, Hd. simpl.
    destruct (raises (env w) (now w) (OpenKey KEY_WRITE)); simpl;
      eexists; (split; [reflexivity|]); simpl;
      (split; [reflexivity|]); (split; [reflexivity|]);
      (erewrite since_app
         by (simpl; rewrite <- ?(assoc_L (++)); reflexivity));
      repeat constructor.
  - destruct (set_windows_theme_run theme w) as (l & w' & Hrun & _).
    exists (write_path_clear theme w), w'. split; [exact Hrun|]. split.
    + intros c Hc Hraise. unfold write_path_clear.
      apply andb_false_intro2. apply not_true_is_false. intros Hall.
      rewrite List.forallb_forall in Hall. specialize (Hall c Hc).
      rewrite Hraise in Hall. discriminate.
    + unfold write_path_clear. intros Hb. apply andb_prop in Hb as [Hb _].
      apply theme_choice_valid. destruct (theme_choice theme); [eauto|done].
Qed.

(** The claim at the theme 'auto' on a machine where nothing raises. *)
Lemma set_windows_theme_invalid_witness :
  exists w',
    set_windows_theme "auto" (boot (calm_env (0, 0) 0 (fun _ => 0)) ∅ []) =
      (Ret false, w') /\
    registry w' = ∅ /\ icon w' = None /\
    Forall (fun x => is_write (what x) = false)
           (since (boot (calm_env (0, 0) 0 (fun _ => 0)) ∅ []) w').
Proof.
  apply (proj1 (set_windows_theme_invalid_or_raising "auto"
           (boot (calm_env (0, 0) 0 (fun _ => 0)) ∅ [])));
    discriminate.
Defined.

End SetWindowsTheme.

(** ** The polling tick *)

Section Tick.

Variables sunrise sunset : string.

Lemma opt_ne_false (d : string) (applied : option string) :
  PyStr.opt_ne d applied = false <-> applied = Some d.
Proof.
  unfold PyStr.opt_ne, PyStr.eq. destruct applied as [a|]; [|done].
  rewrite negb_false_iff, String.eqb_eq. split; congruence.
Qed.

Lemma opt_ne_true (d : string) (applied : option string) :
  PyStr.opt_ne d applied = true <-> applied <> Some d.
Proof.
  rewrite <- opt_ne_false. destruct (PyStr.opt_ne d applied); split; congruence.
Qed.

Lemma tick_run (applied : option string) (w : World) :
  exists l w',
    tick sunrise sunset applied w =
      (Ret (if PyStr.opt_ne (desired_in sunrise sunset w) applied
            then if write_path_clear (desired_in sunrise sunset w) w
                 then Some (desired_in sunrise sunset w) else applied
            else applied), w') /\
    same_control w w' /\
    log w' = log w ++ l /\
    Forall (fun x => who x = self w) l /\
    applied_themes (map what l) =
      (if PyStr.opt_ne (desired_in sunrise sunset w) applied
       then [desired_in sunrise sunset w] else []) /\
    sleeps (map what l) = [].
Proof.
  unfold tick, get_local_time, desired_in, local_time_of. run_monad. simpl.
  set (d := desired_theme sunrise _ sunset).
  destruct (PyStr.opt_ne d applied).
  - match goal with |- context [set_windows_theme d ?w1] =>
      destruct (set_windows_theme_run d w1)
        as (l & w' & Hrun & Hc & Hlog & Hwho & Ha & Hs)
    end.
    rewrite Hrun. rewrite write_path_clear_log. simpl in *.
    eexists _, w'. split; [destruct (write_path_clear d w); reflexivity|].
    split; [exact Hc|]. rewrite Hlog, <- (assoc_L (++)). simpl.
    split; [reflexivity|]. split; [repeat constructor; exact Hwho|].
    simpl. rewrite Ha, Hs. split; reflexivity.
  - eexists _, _. split; [reflexivity|]. split; [unfold same_control; tauto|].
    simpl. split; [reflexivity|]. split; [repeat constructor|].
    split; reflexivity.
Qed.

Lemma calls_during_own (w w' : World) (l : list entry) :
  log w' = log w ++ l -> Forall (fun x => who x = self w) l ->
  calls_during (self w) w w' = applied_themes (map what l).
Proof.
  intros Hlog Hwho. unfold calls_during.
  by rewrite (since_app _ _ _ Hlog), events_of_own.
Qed.

Lemma set_windows_theme_result (theme : string) (w : World) :
  fst (set_windows_theme theme w) = Ret (write_path_clear theme w).
Proof.
  destruct (set_windows_theme_run theme w) as (l & w' & Hrun & _).
  by rewrite Hrun.
Qed.

Lemma desired_theme_light (local_time : string) :
  desired_theme sunrise local_time sunset = "light" <->
  PyStr.lt sunrise local_time = true /\ PyStr.lt local_time sunset = true.
Proof.
  unfold desired_theme. split.
  - destruct (PyStr.lt sunrise local_time); [|discriminate].
    destruct (PyStr.lt local_time sunset); [split; reflexivity|discriminate].
  - intros [-> ->]. reflexivity.
Qed.

Lemma desired_theme_dark_or_light (local_time : string) :
  desired_theme sunrise local_time sunset = "light" \/
  desired_theme sunrise local_time sunset = "dark".
Proof. unfold desired_theme. destruct (_ && _); auto. Qed.

Lemma tick_calls (applied : option string) (w : World) :
  calls_during (self w) w (snd (tick sunrise sunset applied w)) =
    if PyStr.opt_ne (desired_in sunrise sunset w) applied
    then [desired_in sunrise sunset w] else [].
Proof.
  destruct (tick_run applied w) as (l & w' & Hrun & _ & Hlog & Hwho & Ha & _).
  rewrite Hrun. simpl. by rewrite (calls_during_own _ _ _ Hlog Hwho).
Qed.

(** C1: the desired theme of a tick is 'light' exactly when
    [sunrise < local_time] and [local_time < sunset], both strict, and
    'dark' otherwise; at [local_time = sunrise] and at
    [local_time = sunset] it is 'dark'.  It is the theme the tick of a
    fresh loop hands to [set_windows_theme].  No order between sunrise
    and sunset is needed. *)
Theorem desired_theme_light_iff (local_time : string) :
  (desired_theme sunrise local_time sunset = "light" <->
     PyStr.lt sunrise local_time = true /\ PyStr.lt local_time sunset = true) /\
  (desired_theme sunrise local_time sunset <> "light" ->
     desired_theme sunrise local_time sunset = "dark") /\
  desired_theme sunrise sunrise sunset = "dark" /\
  desired_theme sunrise sunset sunset = "dark" /\
  (forall w, local_time_of w = local_time ->
     calls_during (self w) w (snd (tick sunrise sunset None w)) =
       [desired_theme sunrise local_time sunset]).
Proof.
  split; [apply desired_theme_light|]. unfold desired_theme. repeat split.
  - destruct (_ && _); [intros H; by destruct H|reflexivity].
  - by rewrite lt_irrefl.
  - by rewrite lt_irrefl, andb_false_r.
  - intros w <-. by rewrite tick_calls.
Qed.

(** C7: when the tick calls [set_windows_theme] and the call returns
    [False], [current_applied_theme] keeps its value, so a later tick
    with the same desired theme calls [set_windows_theme] with it again;
    the value becomes the desired theme only when the call returns
    [True]. *)
Theorem tick_failure_keeps_state (applied : option string) (w : World) :
  applied <> Some (desired_in sunrise sunset w) ->
  calls_during (self w) w (snd (tick sunrise sunset applied w)) =
    [desired_in sunrise sunset w] /\
  (fst (set_windows_theme (desired_in sunrise sunset w) w) = Ret false ->
     fst (tick sunrise sunset applied w) = Ret applied /\
     forall w2, desired_in sunrise sunset w2 = desired_in sunrise sunset w ->
       calls_during (self w2) w2 (snd (tick sunrise sunset applied w2)) =
         [desired_in sunrise sunset w]) /\
  (fst (set_windows_theme (desired_in sunrise sunset w) w) = Ret true ->
     fst (tick sunrise sunset applied w) =
       Ret (Some (desired_in sunrise sunset w))) /\
  (forall a, fst (tick sunrise sunset applied w) = Ret a -> a <> applied ->
     a = Some (desired_in sunrise sunset w) /\
     fst (set_windows_theme (desired_in sunrise sunset w) w) = Ret true).
Proof.
  intros Hne. apply opt_ne_true in Hne.
  rewrite set_windows_theme_result.
  destruct (tick_run applied w) as (l & w' & Hrun & _).
  rewrite tick_calls, Hrun, Hne. simpl. repeat split.
  - injection H as ->. reflexivity.
  - intros w2 Hd. by rewrite tick_calls, Hd, Hne.
  - intros H. injection H as ->. reflexivity.
  - destruct (write_path_clear _ w); congruence.
  - destruct (write_path_clear _ w); congruence.
Qed.

(** C2, amended: when the desired theme is the same at both ticks and
    [set_windows_theme] returns [True] when the first tick calls it, the
    second tick makes no call; the first makes one call when
    [current_applied_theme] differs from the desired theme and none when
    it is equal, so the two ticks make one call or none. *)
Theorem two_ticks_one_call_or_none (applied : option string) (w w2 : World) :
  (applied <> Some (desired_in sunrise sunset w) ->
   fst (set_windows_theme (desired_in sunrise sunset w) w) = Ret true) ->
  desired_in sunrise sunset w2 = desired_in sunrise sunset w ->
  exists a1 w1,
    tick sunrise sunset applied w = (Ret a1, w1) /\
    a1 = Some (desired_in sunrise sunset w) /\
    calls_during (self w) w w1 =
      (if decide (applied = Some (desired_in sunrise sunset w))
       then [] else [desired_in sunrise sunset w]) /\
    calls_during (self w2) w2 (snd (tick sunrise sunset a1 w2)) = [].
Proof.
  intros Hok Hd.
  destruct (tick_run applied w) as (l & w1 & Hrun & _).
  pose proof (tick_calls applied w) as Hcalls.
  rewrite Hrun in Hcalls. simpl in Hcalls.
  eexists _, w1. split; [exact Hrun|].
  rewrite Hcalls, tick_calls, Hd.
  destruct (decide (applied = Some (desired_in sunrise sunset w))) as [->|Hne].
  - rewrite (proj2 (opt_ne_false _ _) eq_refl). repeat split.
    by rewrite (proj2 (opt_ne_false _ _) eq_refl).
  - specialize (Hok Hne). rewrite set_windows_theme_result in Hok.
    injection Hok as Hok.
    rewrite (proj2 (opt_ne_true _ _) Hne), Hok. repeat split.
    by rewrite (proj2 (opt_ne_false _ _) eq_refl).
Qed.

End Tick.

(** ** The tick on concrete machines *)

Section TickExamples.

(** C1 at the two boundaries and inside the day. *)
Lemma desired_theme_light_iff_witness :
  desired_theme "06:30:00" "06:30:00" "20:15:00" = "dark" /\
  desired_theme "06:30:00" "20:15:00" "20:15:00" = "dark" /\
  desired_theme "06:30:00" "12:00:00" "20:15:00" = "light".
Proof.
  split; [apply (desired_theme_light_iff "06:30:00" "20:15:00" "06:30:00")|].
  split; [apply (desired_theme_light_iff "06:30:00" "20:15:00" "20:15:00")|].
  apply (desired_theme_light_iff "06:30:00" "20:15:00" "12:00:00").
  split; reflexivity.
Defined.

(** C7 on a machine where the registry key cannot be opened, and on
    one where every call succeeds. *)
Lemma tick_failure_keeps_state_witness :
  (fst (set_windows_theme (desired_in "06:30:00" "20:15:00" locked_machine) locked_machine) =
     Ret false /\
   fst (tick "06:30:00" "20:15:00" None locked_machine) = Ret None /\
   calls_during 1 locked_machine (snd (tick "06:30:00" "20:15:00" None locked_machine)) =
     ["light"]) /\
  (fst (set_windows_theme (desired_in "06:30:00" "20:15:00" calm_machine) calm_machine) =
     Ret true /\
   fst (tick "06:30:00" "20:15:00" None calm_machine) = Ret (Some "light")).
Proof.
  split.
  - assert (Hfail : fst (set_windows_theme
              (desired_in "06:30:00" "20:15:00" locked_machine) locked_machine) = Ret false)
      by (vm_compute; reflexivity).
    destruct (tick_failure_keeps_state "06:30:00" "20:15:00" None locked_machine)
      as (Hcall & Hkeep & _); [discriminate|].
    split; [exact Hfail|]. split; [apply (Hkeep Hfail)|exact Hcall].
  - assert (Hok : fst (set_windows_theme
              (desired_in "06:30:00" "20:15:00" calm_machine) calm_machine) = Ret true)
      by (vm_compute; reflexivity).
    destruct (tick_failure_keeps_state "06:30:00" "20:15:00" None calm_machine)
      as (_ & _ & Hset & _); [discriminate|].
    split; [exact Hok|apply (Hset Hok)].
Defined.

(** C2, amended, on the machine where every call succeeds: a fresh loop
    makes its one call in the first tick. *)
Lemma two_ticks_one_call_or_none_witness :
  exists a1 w1,
    tick "06:30:00" "20:15:00" None calm_machine = (Ret a1, w1) /\
    a1 = Some "light" /\
    calls_during 1 calm_machine w1 = ["light"] /\
    calls_during 1 (with_now 60 calm_machine)
      (snd (tick "06:30:00" "20:15:00" a1 (with_now 60 calm_machine))) = [].
Proof.
  destruct (two_ticks_one_call_or_none "06:30:00" "20:15:00" None calm_machine
              (with_now 60 calm_machine))
    as (a1 & w1 & Hrun & Ha & Hc1 & Hc2);
    [intros _; vm_compute; reflexivity | reflexivity |].
  exists a1, w1. split; [exact Hrun|]. split; [exact Ha|].
  split; [exact Hc1|exact Hc2].
Defined.

(** C2 as stated fails both ways: a loop whose applied theme already is
    the desired one makes no call in two ticks, and a loop on a machine
    where the call fails makes two, the second in the second tick. *)
Lemma two_ticks_counterexample :
  calls_during 1 calm_machine
    (snd (two_ticks "06:30:00" "20:15:00" (Some "light") calm_machine)) = [] /\
  calls_during 1 locked_machine
    (snd (two_ticks "06:30:00" "20:15:00" None locked_machine)) = ["light"; "light"] /\
  calls_at 1 (log (snd (two_ticks "06:30:00" "20:15:00" None locked_machine))) =
    [(0, "light"); (60, "light")].
Proof. repeat split; vm_compute; reflexivity. Qed.

End TickExamples.

(** ** Sleeping while the menu is served *)

Section Sleep.

Lemma select_theme_manual (theme : string) (w : World) :
  theme <> "auto" ->
  exists l w',
    select_theme theme w = (Ret tt, w') /\
    env w' = env w /\
    events w' = <[stop_event w := true]> (events w) /\
    stop_event w' = stop_event w /\ threads w' = threads w /\
    now w' = now w /\ self w' = self w /\ pending w' = pending w /\
    log w' = log w ++ l /\ Forall (fun x => who x = self w) l.
Proof.
  intros Hm. apply String.eqb_neq in Hm.
  unfold select_theme, stop_event_set, PyStr.eq. rewrite Hm.
  run_monad. simpl.
  match goal with |- context [set_windows_theme theme ?w1] =>
    destruct (set_windows_theme_run theme w1)
      as (l & w' & Hrun & Hc & Hlog & Hwho & _)
  end.
  rewrite Hrun. destruct Hc as (He & Hev & Hs & Ht & Hn & Hself & Hp).
  simpl in *. eexists _, w'. split; [reflexivity|].
  rewrite Hlog, <- !(assoc_L (++)). simpl.
  repeat (split; [first [assumption|reflexivity]|]).
  repeat constructor. exact Hwho.
Qed.

(** The same for any selection, 'auto' included: the call returns, and
    a flag that is set stays set. *)
Lemma select_theme_run (theme : string) (w : World) :
  exists l w',
    select_theme theme w = (Ret tt, w') /\
    env w' = env w /\ now w' = now w /\ self w' = self w /\
    pending w' = pending w /\
    log w' = log w ++ l /\ Forall (fun x => who x = self w) l /\
    (forall e, events w !! e = Some true -> events w' !! e = Some true).
Proof.
  destruct (String.eqb_spec theme "auto") as [->|Hm].
  - eexists _, _. split; [reflexivity|]. simpl.
    repeat (split; [reflexivity|]). split.
    + rewrite <- !(assoc_L (++)). simpl. reflexivity.
    + split; [repeat constructor|]. intros e He.
      apply lookup_app_l_Some.
      destruct (decide (stop_event w = e)) as [->|Hne].
      * apply list_lookup_insert_eq. by eapply lookup_lt_Some.
      * by rewrite list_lookup_insert_ne.
  - destruct (select_theme_manual theme w Hm)
      as (l & w' & Hrun & He & Hev & Hs & Ht & Hn & Hself & Hp & Hlog & Hwho).
    exists l, w'. repeat (split; [assumption|]). intros e Hset. rewrite Hev.
    destruct (decide (stop_event w = e)) as [->|Hne].
    + apply list_lookup_insert_eq. by eapply lookup_lt_Some.
    + by rewrite list_lookup_insert_ne.
Qed.

Lemma run_callbacks_run (due : list (Z * string)) :
  forall w, exists l w',
    run_callbacks due w = (Ret tt, w') /\
    env w' = env w /\ self w' = self w /\ pending w' = pending w /\
    log w' = log w ++ l /\ Forall (fun x => who x = self w) l /\
    (forall e, events w !! e = Some true -> events w' !! e = Some true).
Proof.
  induction due as [|[t theme] due IH]; intros w.
  - exists [], w. simpl. rewrite (right_id_L [] (++)).
    repeat (split; [reflexivity|]). split; [constructor|auto].
  - simpl. run_monad. simpl.
    match goal with |- context [select_theme theme ?w1] =>
      destruct (select_theme_run theme w1)
        as (l1 & w1' & Hrun & He & Hn & Hself & Hp & Hlog & Hwho & Hmono)
    end.
    rewrite Hrun. simpl in *.
    destruct (IH w1') as (l2 & w2 & Hrun2 & He2 & Hself2 & Hp2 & Hlog2
                            & Hwho2 & Hmono2).
    rewrite Hrun2. exists (l1 ++ l2), w2. split; [reflexivity|].
    rewrite He2, Hself2, Hp2, Hlog2, Hlog, (assoc_L (++)).
    repeat (split; [first [assumption|reflexivity]|]). split.
    + apply Forall_app. split; [exact Hwho|]. rewrite <- Hself. exact Hwho2.
    + intros e Hset. apply Hmono2, Hmono, Hset.
Qed.

Lemma time_sleep_run (s : Z) (w : World) :
  exists l w',
    time_sleep s w = (Ret tt, w') /\
    env w' = env w /\ self w' = self w /\ now w' = now w + s /\
    log w' = log w ++ Entry (self w) (now w) (EvSleep s) :: l /\
    Forall (fun x => who x = main_thread) l /\
    (forall e, events w !! e = Some true -> events w' !! e = Some true).
Proof.
  unfold time_sleep. run_monad. simpl.
  match goal with |- context [run_callbacks ?due ?w1] =>
    destruct (run_callbacks_run due w1)
      as (l & w' & Hrun & He & Hself & Hp & Hlog & Hwho & Hmono)
  end.
  rewrite Hrun. simpl in *. eexists l, _. split; [reflexivity|]. simpl.
  rewrite Hlog, <- (assoc_L (++)). simpl.
  do 4 (split; [first [assumption|reflexivity]|]). split; [assumption|].
  intros e Hset. by apply Hmono.
Qed.

(** The global name stays bound to an event of the heap, and after a
    selection other than 'auto' the event it is bound to is set. *)
Lemma select_theme_bound (theme : string) (w : World) :
  (stop_event w < length (events w))%nat ->
  exists w',
    select_theme theme w = (Ret tt, w') /\
    (stop_event w' < length (events w'))%nat /\
    (theme <> "auto" -> events w' !! stop_event w' = Some true).
Proof.
  intros Hwf. destruct (String.eqb_spec theme "auto") as [->|Hm].
  - eexists. split; [reflexivity|]. simpl. split; [|done].
    rewrite length_app, length_insert. simpl. lia.
  - destruct (select_theme_manual theme w Hm)
      as (l & w' & Hrun & _ & Hev & Hs & _).
    exists w'. split; [exact Hrun|]. rewrite Hev, Hs, length_insert.
    split; [exact Hwf|]. intros _. by apply list_lookup_insert_eq.
Qed.

Lemma run_callbacks_last_manual (before : list (Z * string)) (p : Z * string) :
  manual p ->
  forall w, (stop_event w < length (events w))%nat ->
    exists w',
      run_callbacks (before ++ [p]) w = (Ret tt, w') /\
      events w' !! stop_event w' = Some true.
Proof.
  destruct p as [t theme]. intros Hm.
  induction before as [|[u th] before IH]; intros w Hwf; simpl;
    run_monad; simpl.
  - match goal with |- context [select_theme theme ?w1] =>
      destruct (select_theme_bound theme w1 Hwf) as (w' & Hrun & _ & Hset)
    end.
    rewrite Hrun. exists w'. split; [reflexivity|]. by apply Hset.
  - match goal with |- context [select_theme th ?w1] =>
      destruct (select_theme_bound th w1 Hwf) as (w1' & Hrun & Hwf1 & _)
    end.
    rewrite Hrun. apply IH, Hwf1.
Qed.

Lemma due_until_mono (t t' : Z) (p : list (Z * string)) :
  t' <= t -> due_until t p = [] -> due_until t' p = [].
Proof.
  intros Hle. destruct p as [|[u theme] p]; [reflexivity|]. simpl.
  destruct (Z.leb_spec u t); [discriminate|]. intros _.
  destruct (Z.leb_spec u t'); [lia|reflexivity].
Qed.

End Sleep.

(** ** Schedule resolution with back-off *)

Section Resolution.

Lemma backoff_seq_bounds (k : nat) : 30 <= backoff_seq k <= 600.
Proof. induction k as [|k IH]; simpl; lia. Qed.

Lemma backoff_seq_mono (k : nat) : backoff_seq k <= backoff_seq (S k).
Proof. pose proof (backoff_seq_bounds k). simpl. lia. Qed.

Lemma retry_time_ge (k : nat) : forall j t, t <= retry_time j t k.
Proof.
  induction k as [|k IH]; intros j t; simpl; [lia|].
  pose proof (IH (S j) (t + backoff_seq j)).
  pose proof (backoff_seq_bounds j). lia.
Qed.

Lemma automatic_data_run (w : World) :
  automatic_data w =
    (Ret (resolves_at (env w) (now w)), logged EvGeoRequest w).
Proof.
  unfold automatic_data, get_location, get_sunrise_and_sunset,
    sun_time_local, resolves_at.
  run_monad. simpl.
  destruct (location (env w) (now w)) as [c|]; simpl; [|reflexivity].
  destruct (ephemeris (env w) (now w) c) as [[a b]|]; simpl; [|reflexivity].
  destruct (utc_offset (env w) (now w)) as [off|]; [|reflexivity].
  unfold datetime_add. run_monad.
  destruct (datetime_in_range (a + off)); [|reflexivity].
  destruct (datetime_in_range (b + off)); reflexivity.
Qed.

Lemma time_sleep_quiet (s : Z) (w : World) :
  due_until (now w + s) (pending w) = [] ->
  time_sleep s w = (Ret tt, with_now (now w + s) (logged (EvSleep s) w)).
Proof. intros Hdue. unfold time_sleep. rewrite Hdue. reflexivity. Qed.

(** One turn of the first loop when the attempt has failed, the flag
    is clear and nobody touches the menu during the wait. *)
Lemma resolve_loop_retry (fuel : nat) (backoff : Z) (w : World) :
  events w !! stop_event w = Some false ->
  due_until (now w + backoff) (pending w) = [] ->
  resolve_loop (S fuel) backoff 600 None w =
    attempt_loop fuel (Z.min (backoff * 2) 600) 600
      (with_now (now w + backoff)
         (logged (EvSleep backoff) (logged (EvPrint (MsgRetrying backoff)) w))).
Proof.
  intros Hclear Hdue. simpl. unfold stop_event_is_set. run_monad.
  rewrite Hclear. simpl.
  pose proof (time_sleep_quiet backoff
                (with_log (fun l => l ++
                   [Entry (self w) (now w) (EvPrint (MsgRetrying backoff))]) w)
                Hdue) as Hsleep.
  simpl in Hsleep. unfold logged in Hsleep. simpl in Hsleep.
  rewrite Hsleep. reflexivity.
Qed.

Lemma attempt_loop_run (n : nat) :
  forall (j fuel : nat) (w : World) (s : string * string),
    (n <= fuel)%nat ->
    events w !! stop_event w = Some false ->
    due_until (retry_time j (now w) n) (pending w) = [] ->
    (forall k, (k < n)%nat ->
               resolves_at (env w) (retry_time j (now w) k) = None) ->
    resolves_at (env w) (retry_time j (now w) n) = Some s ->
    exists l w',
      attempt_loop fuel (backoff_seq j) 600 w = (Ret (Some s), w') /\
      env w' = env w /\ registry w' = registry w /\ icon w' = icon w /\
      events w' = events w /\ stop_event w' = stop_event w /\
      threads w' = threads w /\ self w' = self w /\
      pending w' = pending w /\ now w' = retry_time j (now w) n /\
      log w' = log w ++ l /\ Forall (fun x => who x = self w) l /\
      sleeps (map what l) = map backoff_seq (seq j n) /\
      attempts (map what l) = S n /\
      applied_themes (map what l) = [].
Proof.
  induction n as [|n IH]; intros j fuel w s Hfuel Hclear Hdue Hfail Hok.
  - simpl in Hok. unfold attempt_loop, mbind, M_bind.
    rewrite automatic_data_run, Hok.
    exists [Entry (self w) (now w) EvGeoRequest], (logged EvGeoRequest w).
    split; [destruct fuel; reflexivity|].
    repeat (split; [reflexivity|]). split; [repeat constructor|].
    repeat split; reflexivity.
  - destruct fuel as [|fuel]; [lia|].
    unfold attempt_loop at 1. unfold mbind, M_bind.
    pose proof (Hfail 0%nat ltac:(lia)) as Hfirst. simpl in Hfirst.
    rewrite automatic_data_run, Hfirst.
    pose proof (retry_time_ge n (S j) (now w + backoff_seq j)) as Hge.
    rewrite resolve_loop_retry;
      [|exact Hclear|eapply due_until_mono; [|exact Hdue]; simpl; lia].
    change (Z.min (backoff_seq j * 2) 600) with (backoff_seq (S j)).
    match goal with |- context [attempt_loop fuel _ 600 ?w2] =>
      destruct (IH (S j) fuel w2 s) as
        (l & w' & Hrun & He & Hr & Hi & Hev & Hs & Ht & Hself & Hp & Hn
           & Hlog & Hwho & Hsl & Hat & Hap)
    end.
    + lia.
    + exact Hclear.
    + exact Hdue.
    + intros k Hk. apply (Hfail (S k)). lia.
    + exact Hok.
    + simpl in *. rewrite Hrun.
      exists (Entry (self w) (now w) EvGeoRequest
              :: Entry (self w) (now w) (EvPrint (MsgRetrying (backoff_seq j)))
              :: Entry (self w) (now w) (EvSleep (backoff_seq j)) :: l), w'.
      split; [reflexivity|].
      repeat (split; [assumption|]).
      split; [rewrite Hlog, <- !(assoc_L (++)); reflexivity|].
      split; [repeat constructor; exact Hwho|].
      simpl. rewrite Hsl, Hat, Hap. repeat split; reflexivity.
Qed.

(** C3: when the first [n] attempts fail and attempt [n] succeeds, with
    the flag clear and the menu untouched, the first loop sleeps [n]
    times, for 30 s and then each time for [min(previous*2, 600)], and
    the polling loop is entered with the schedule; this holds for every
    [n], so the code knows no last retry.  The waits never decrease and
    never exceed 600. *)
Theorem resolution_backoff (n fuel : nat) (w : World) (sunrise sunset : string) :
  (n <= fuel)%nat ->
  events w !! stop_event w = Some false ->
  due_until (retry_time 0 (now w) n) (pending w) = [] ->
  (forall k, (k < n)%nat ->
             resolves_at (env w) (retry_time 0 (now w) k) = None) ->
  resolves_at (env w) (retry_time 0 (now w) n) = Some (sunrise, sunset) ->
  (exists w',
     attempt_loop fuel 30 600 w = (Ret (Some (sunrise, sunset)), w') /\
     sleeps (events_of (self w) (since w w')) = map backoff_seq (seq 0 n) /\
     attempts (events_of (self w) (since w w')) = S n /\
     calls_during (self w) w w' = [] /\
     automatic_theme fuel w = poll_loop fuel sunrise sunset None w') /\
  backoff_seq 0 = 30 /\
  (forall k, backoff_seq (S k) = Z.min (backoff_seq k * 2) 600 /\
             backoff_seq k <= backoff_seq (S k) /\
             backoff_seq k <= 600).
Proof.
  intros Hfuel Hclear Hdue Hfail Hok. split; [|split; [reflexivity|]].
  - destruct (attempt_loop_run n 0 fuel w (sunrise, sunset)
                Hfuel Hclear Hdue Hfail Hok)
      as (l & w' & Hrun & _ & _ & _ & _ & _ & _ & _ & _ & _
            & Hlog & Hwho & Hsl & Hat & Hap).
    exists w'. split; [exact Hrun|].
    unfold calls_during.
    rewrite (since_app _ _ _ Hlog), (events_of_own _ _ Hwho).
    repeat (split; [assumption|]).
    change (backoff_seq 0) with 30 in Hrun.
    unfold automatic_theme, attempt_loop, mbind, M_bind in *. cbv zeta.
    rewrite automatic_data_run in *. rewrite Hrun. reflexivity.
  - intros k. split; [reflexivity|]. split; [apply backoff_seq_mono|].
    apply backoff_seq_bounds.
Qed.

End Resolution.

Section ResolutionExample.

(** C3 when the resolution fails twice and then succeeds: the loop
    sleeps 30 s, then 60 s, and enters the polling loop after the third
    attempt. *)
Lemma resolution_backoff_witness :
  exists w',
    attempt_loop 2 30 600 (started flaky_env ∅ []) =
      (Ret (Some ("06:30:00", "20:15:00")), w') /\
    sleeps (events_of 1 (since (started flaky_env ∅ []) w')) = [30; 60] /\
    attempts (events_of 1 (since (started flaky_env ∅ []) w')) = 3%nat /\
    calls_during 1 (started flaky_env ∅ []) w' = [] /\
    automatic_theme 2 (started flaky_env ∅ []) =
      poll_loop 2 "06:30:00" "20:15:00" None w'.
Proof.
  apply (resolution_backoff 2 2 (started flaky_env ∅ []) "06:30:00" "20:15:00").
  - lia.
  - reflexivity.
  - reflexivity.
  - intros [|[|k]] Hk; [reflexivity|reflexivity|lia].
  - vm_compute. reflexivity.
Defined.

End ResolutionExample.

(** ** The order of the formatted times *)

Section FormattedTimes.

(** C9: [get_local_time] and [automatic_data] hand the tick zero-padded
    'HH:MM:SS' strings, on which the string order is the order of the
    times of day.  So with a schedule [automatic_data] has returned, the
    tick calls [set_windows_theme] with 'light' when the clock's time of
    day lies strictly between those of the local sunrise and sunset, and
    with 'dark' when it does not (and makes no call when that theme is
    the one already applied). *)
Theorem string_order_is_time_order (a b : clock_time) :
  (valid_time a -> valid_time b ->
   (PyStr.lt (strftime_HMS a) (strftime_HMS b) = true <->
    seconds_of_day a < seconds_of_day b)) /\
  String.length (strftime_HMS a) = 8%nat /\
  (forall w, fst (get_local_time w) =
               Ret (strftime_HMS (time_of_day (local_now (env w) (now w))))) /\
  (forall w w1 sunrise sunset,
     automatic_data w = (Ret (Some (sunrise, sunset)), w1) ->
     exists c sunrise_utc sunset_utc off,
       location (env w) (now w) = Some c /\
       ephemeris (env w) (now w) c = Some (sunrise_utc, sunset_utc) /\
       utc_offset (env w) (now w) = Some off /\
       sunrise = strftime_HMS (time_of_day (sunrise_utc + off)) /\
       sunset = strftime_HMS (time_of_day (sunset_utc + off)) /\
       forall applied w2,
         ((sunrise_utc + off) mod 86400 < local_now (env w2) (now w2) mod 86400
            < (sunset_utc + off) mod 86400 ->
          calls_during (self w2) w2 (snd (tick sunrise sunset applied w2)) =
            if decide (applied = Some "light") then [] else ["light"]) /\
         (~ ((sunrise_utc + off) mod 86400 < local_now (env w2) (now w2) mod 86400
               < (sunset_utc + off) mod 86400) ->
          calls_during (self w2) w2 (snd (tick sunrise sunset applied w2)) =
            if decide (applied = Some "dark") then [] else ["dark"])).
Proof.
  split; [apply strftime_lt|]. split; [reflexivity|].
  split; [reflexivity|].
  intros w w1 sunrise sunset Hrun. rewrite automatic_data_run in Hrun.
  injection Hrun as Hres _. unfold resolves_at in Hres.
  destruct (location (env w) (now w)) as [c|]; [|discriminate].
  destruct (ephemeris (env w) (now w) c) as [[sr ss]|] eqn:Heph;
    [|discriminate].
  destruct (utc_offset (env w) (now w)) as [off|]; [|discriminate].
  destruct (_ && _); [|discriminate].
  injection Hres as <- <-. exists c, sr, ss, off.
  split; [reflexivity|]. split; [exact Heph|].
  do 3 (split; [reflexivity|]). intros applied w2.
  rewrite !tick_calls.
  set (sunrise := strftime_HMS (time_of_day (sr + off))).
  set (sunset := strftime_HMS (time_of_day (ss + off))).
  assert (Hday : desired_in sunrise sunset w2 = "light" <->
                 (sr + off) mod 86400 < local_now (env w2) (now w2) mod 86400
                   < (ss + off) mod 86400).
  { unfold desired_in, local_time_of, sunrise, sunset.
    rewrite desired_theme_light.
    rewrite !strftime_lt by apply time_of_day_valid.
    rewrite !seconds_of_time_of_day. reflexivity. }
  split; intros Hd.
  - rewrite (proj2 Hday Hd). destruct (decide (applied = Some "light")) as [->|Hne].
    + by rewrite (proj2 (opt_ne_false _ _) eq_refl).
    + by rewrite (proj2 (opt_ne_true _ _) Hne).
  - assert (Hdark : desired_in sunrise sunset w2 = "dark").
    { destruct (desired_theme_dark_or_light sunrise sunset (local_time_of w2))
        as [Hl|Hk]; [|exact Hk].
      exfalso. apply Hd, Hday, Hl. }
    rewrite Hdark. destruct (decide (applied = Some "dark")) as [->|Hne].
    + by rewrite (proj2 (opt_ne_false _ _) eq_refl).
    + by rewrite (proj2 (opt_ne_true _ _) Hne).
Qed.

(** C9 at 06:30:00 and 12:00:00, and for the schedule and the clock of
    the machine on which all goes well: it is noon there, between
    06:30:00 and 20:15:00. *)
Lemma string_order_is_time_order_witness :
  PyStr.lt (strftime_HMS (ClockTime 6 30 0)) (strftime_HMS (ClockTime 12 0 0))
    = true /\
  fst (automatic_data calm_machine) = Ret (Some ("06:30:00", "20:15:00")) /\
  calls_during 1 calm_machine
    (snd (tick "06:30:00" "20:15:00" None calm_machine)) = ["light"].
Proof.
  destruct (string_order_is_time_order (ClockTime 6 30 0) (ClockTime 12 0 0))
    as (Horder & _ & _ & Hsched).
  split.
  - apply Horder.
    + unfold valid_time. simpl. lia.
    + unfold valid_time. simpl. lia.
    + unfold seconds_of_day. simpl. lia.
  - split; [reflexivity|].
    destruct (Hsched calm_machine (logged EvGeoRequest calm_machine)
                "06:30:00" "20:15:00" eq_refl)
      as (c & sr & ss & off & _ & Heph & Hoff & _ & _ & Htick).
    injection Heph as <- <-. injection Hoff as <-.
    apply (proj1 (Htick None calm_machine)). vm_compute.
    split; reflexivity.
Defined.

End FormattedTimes.

(** ** The scenario of the four clock readings *)

Section FourTicks.

(** C4, amended: the loop computes the desired themes dark, light,
    light, dark and calls [set_windows_theme] three times: in the first
    tick, where nothing was applied yet, and at the two changes; the
    third tick makes no call. *)
Theorem four_ticks_three_calls :
  fst (run_thread 1 10 four_ticks) = Ret tt /\
  clock_reads (events_of 1 (log (snd (run_thread 1 10 four_ticks)))) =
    ["06:29:59"; "06:30:01"; "20:14:59"; "20:15:00"] /\
  desired_themes (events_of 1 (log (snd (run_thread 1 10 four_ticks)))) =
    ["dark"; "light"; "light"; "dark"] /\
  calls_at 1 (log (snd (run_thread 1 10 four_ticks))) =
    [(0, "dark"); (60, "light"); (180, "dark")].
Proof. repeat split; vm_compute; reflexivity. Qed.

(** C4 as stated fails: the calls are three, not two. *)
Lemma four_ticks_counterexample :
  length (calls_during 1 four_ticks (snd (run_thread 1 10 four_ticks))) = 3%nat.
Proof. vm_compute. reflexivity. Qed.

End FourTicks.

(** ** Cancellation during a wait *)

Section Cancellation.

(** The two definitions are the code that follows the sleeps. *)
Lemma poll_loop_resume (fuel : nat) (sunrise sunset : string)
    (applied : option string) (w : World) :
  events w !! stop_event w = Some false ->
  poll_loop (S fuel) sunrise sunset applied w =
    (a ← tick sunrise sunset applied;
     resume_tick_sleep fuel sunrise sunset a) w.
Proof.
  intros Hclear. simpl. unfold stop_event_is_set, resume_tick_sleep.
  run_monad. rewrite Hclear. reflexivity.
Qed.

Lemma automatic_theme_resume (fuel : nat) (w : World) :
  events w !! stop_event w = Some false ->
  resolves_at (env w) (now w) = None ->
  automatic_theme (S fuel) w =
    (print (MsgRetrying 30);; resume_backoff_sleep fuel (S fuel) 30)
      (logged EvGeoRequest w).
Proof.
  intros Hclear Hfail.
  unfold automatic_theme, resume_backoff_sleep, attempt_loop, mbind, M_bind.
  cbv zeta. rewrite automatic_data_run, Hfail. simpl.
  unfold stop_event_is_set. run_monad. simpl. rewrite Hclear. simpl.
  destruct (time_sleep 30 _) as [[[]| |] w1]; reflexivity.
Qed.

Lemma poll_loop_stopped (fuel : nat) (sunrise sunset : string)
    (applied : option string) (w : World) :
  events w !! stop_event w = Some true ->
  poll_loop fuel sunrise sunset applied w = (Ret tt, w).
Proof.
  intros Hset. destruct fuel; simpl; unfold stop_event_is_set; run_monad;
    rewrite Hset; reflexivity.
Qed.

Lemma resolve_loop_stopped (fuel : nat) (backoff : Z)
    (sun_times : option (string * string)) (w : World) :
  events w !! stop_event w = Some true ->
  resolve_loop fuel backoff 600 sun_times w = (Ret sun_times, w).
Proof.
  intros Hset. destruct sun_times as [s|]; [destruct fuel; reflexivity|].
  destruct fuel; simpl; unfold stop_event_is_set; run_monad;
    rewrite Hset; reflexivity.
Qed.

(** A sleep during which the menu is used, the last time for 'light' or
    'dark': the flag is set when the thread wakes, at the end of the
    sleep. *)
Lemma time_sleep_cancelled (s : Z) (w : World) (p : Z * string) :
  self w <> main_thread ->
  (stop_event w < length (events w))%nat ->
  last (due_until (now w + s) (pending w)) = Some p ->
  manual p ->
  exists l w',
    time_sleep s w = (Ret tt, w') /\
    env w' = env w /\ self w' = self w /\ now w' = now w + s /\
    events w' !! stop_event w' = Some true /\
    log w' = log w ++ Entry (self w) (now w) (EvSleep s) :: l /\
    events_of (self w) l = [].
Proof.
  intros Hself Hwf Hlast Hm. apply last_Some in Hlast as [before Hdue].
  destruct (time_sleep_run s w)
    as (l & w' & Hrun & He & Hself' & Hn & Hlog & Hwho & _).
  exists l, w'. repeat (split; [assumption|]). split.
  - unfold time_sleep in Hrun. rewrite Hdue in Hrun.
    revert Hrun. run_monad. simpl.
    match goal with |- context [run_callbacks _ ?w1] =>
      destruct (run_callbacks_last_manual before p Hm w1 Hwf)
        as (w2 & Hcb & Hset)
    end.
    rewrite Hcb. intros Hrun. injection Hrun as <-. exact Hset.
  - split; [exact Hlog|]. by apply events_of_foreign.
Qed.

Lemma events_of_cons_own (t : nat) (x : entry) (l : list entry) :
  who x = t -> events_of t (x :: l) = what x :: events_of t l.
Proof. intros H. unfold events_of. by rewrite filter_cons_True. Qed.

(** C5, amended: when the menu is used while the loop sleeps and the
    last selection made during that wait is 'light' or 'dark', whatever
    was selected before it, the loop sleeps to the end of that wait and
    then returns at the next test of the flag, without a call of
    [set_windows_theme] of its own; in the first loop it makes one more
    attempt at the schedule before that test. *)
Theorem cancel_during_wait (w : World) :
  self w <> main_thread ->
  (stop_event w < length (events w))%nat ->
  (forall p,
   last (due_until (now w + 60) (pending w)) = Some p ->
   manual p ->
   forall fuel sunrise sunset applied,
   exists w',
     resume_tick_sleep fuel sunrise sunset applied w = (Ret tt, w') /\
     now w' = now w + 60 /\
     events_of (self w) (since w w') = [EvSleep 60] /\
     calls_during (self w) w w' = []) /\
  (forall backoff p,
   last (due_until (now w + backoff) (pending w)) = Some p ->
   manual p ->
   forall fuel1 fuel2,
   exists w',
     resume_backoff_sleep fuel1 fuel2 backoff w = (Ret tt, w') /\
     now w' = now w + backoff /\
     sleeps (events_of (self w) (since w w')) = [backoff] /\
     attempts (events_of (self w) (since w w')) = 1%nat /\
     calls_during (self w) w w' = []).
Proof.
  intros Hself Hwf. split.
  - intros p Hdue Hm fuel sunrise sunset applied.
    destruct (time_sleep_cancelled 60 w p Hself Hwf Hdue Hm)
      as (l & w1 & Hrun & _ & _ & Hn & Hset & Hlog & Hl).
    exists w1. unfold resume_tick_sleep, mbind, M_bind.
    rewrite Hrun, (poll_loop_stopped _ _ _ _ _ Hset).
    split; [reflexivity|]. split; [exact Hn|]. unfold calls_during.
    rewrite (since_app _ _ _ Hlog), events_of_cons_own by reflexivity.
    rewrite Hl. split; reflexivity.
  - intros backoff p Hdue Hm fuel1 fuel2.
    destruct (time_sleep_cancelled backoff w p Hself Hwf Hdue Hm)
      as (l & w1 & Hrun & _ & Hself1 & Hn & Hset & Hlog & Hl).
    unfold resume_backoff_sleep, attempt_loop, mbind, M_bind.
    rewrite Hrun, automatic_data_run.
    rewrite (resolve_loop_stopped _ _ _ (logged EvGeoRequest w1)) by exact Hset.
    assert (Hev : forall l2,
               events_of (self w)
                 (Entry (self w) (now w) (EvSleep backoff)
                  :: l ++ Entry (self w1) (now w1) EvGeoRequest :: l2) =
               EvSleep backoff :: EvGeoRequest :: events_of (self w) l2).
    { intros l2. rewrite events_of_cons_own by reflexivity.
      rewrite events_of_app, Hl. simpl.
      by rewrite events_of_cons_own by exact Hself1. }
    destruct (resolves_at (env w1) (now w1)) as [[sunrise sunset]|].
    + rewrite poll_loop_stopped by exact Hset.
      eexists. split; [reflexivity|]. split; [exact Hn|].
      unfold calls_during.
      erewrite since_app
        by (simpl; rewrite Hlog, <- (assoc_L (++)); reflexivity).
      simpl. rewrite (Hev []). repeat split; reflexivity.
    + eexists. split; [reflexivity|]. split; [exact Hn|].
      unfold calls_during.
      erewrite since_app
        by (simpl; rewrite Hlog, <- !(assoc_L (++)); reflexivity).
      simpl. rewrite (Hev [_]).
      rewrite events_of_cons_own by (simpl; exact Hself1).
      repeat split; reflexivity.
Qed.

End Cancellation.

Section CancellationExamples.

(** C5, amended, for a loop that starts to sleep at instant 0: in the
    polling loop while the user picks 'auto' and then 'dark', in the
    first loop while the user picks 'dark'. *)
Lemma cancel_during_wait_witness :
  (exists w',
     resume_tick_sleep 5 "06:30:00" "20:15:00" (Some "light") undecided =
       (Ret tt, w') /\
     now w' = 60 /\
     events_of 1 (since undecided w') = [EvSleep 60] /\
     calls_during 1 undecided w' = []) /\
  (exists w',
     resume_backoff_sleep 5 5 30 offline = (Ret tt, w') /\
     now w' = 30 /\
     sleeps (events_of 1 (since offline w')) = [30] /\
     attempts (events_of 1 (since offline w')) = 1%nat /\
     calls_during 1 offline w' = []).
Proof.
  split.
  - apply (proj1 (cancel_during_wait undecided ltac:(vm_compute; congruence)
                    ltac:(vm_compute; lia)) (10, "dark")).
    + reflexivity.
    + vm_compute. congruence.
  - apply (proj2 (cancel_during_wait offline ltac:(vm_compute; congruence)
                    ltac:(vm_compute; lia)) 30 (10, "dark")).
    + reflexivity.
    + vm_compute. congruence.
Defined.

(** C5 as stated fails: the flag is set at instant 10, in the middle
    of the wait, and the loop returns at the end of the wait: at
    instant 60 from the 60 s sleep of the polling loop, at instant 30
    from the 30 s sleep of the first loop. *)
Lemma cancel_during_wait_counterexample :
  fst (run_thread 1 5 online) = Ret tt /\
  timeline (log (snd (run_thread 1 5 online))) =
    [Entry 1 0 (EvSleep 60); Entry 0 10 (EvEventSet 1);
     Entry 1 60 EvThreadExit] /\
  fst (run_thread 1 5 offline) = Ret tt /\
  timeline (log (snd (run_thread 1 5 offline))) =
    [Entry 1 0 (EvSleep 30); Entry 0 10 (EvEventSet 1);
     Entry 1 30 EvThreadExit].
Proof. repeat split; vm_compute; reflexivity. Qed.

End CancellationExamples.

(** ** Selecting the automatic mode *)

Section SelectAutomatic.

Lemma alive_from_app (h1 h2 : list bool) :
  forall t, alive_from t (h1 ++ h2) =
            alive_from t h1 ++ alive_from (t + length h1) h2.
Proof.
  induction h1 as [|b h1 IH]; intros t; simpl.
  - by rewrite Nat.add_0_r.
  - rewrite IH, <- (assoc_L (++)). by rewrite Nat.add_succ_r.
Qed.

(** C6, amended: selecting 'auto' always sets the flag of the event
    [stop_event] is bound to, then binds [stop_event] to a new event
    with a clear flag and starts one more run-loop, in this order and
    whether or not a run-loop is live; the live run-loops are those
    from before and the new one. *)
Theorem select_auto_restarts (w : World) :
  (stop_event w < length (events w))%nat ->
  threads w <> [] ->
  exists w',
    select_theme "auto" w = (Ret tt, w') /\
    map what (since w w') =
      [EvEventSet (stop_event w); EvPrint MsgAutoEnabled;
       EvThreadStart (length (threads w))] /\
    events w' !! stop_event w = Some true /\
    stop_event w' = length (events w) /\
    events w' !! stop_event w' = Some false /\
    threads w' = threads w ++ [true] /\
    live_loops w' = live_loops w ++ [length (threads w)].
Proof.
  intros Hwf Hmain. eexists. split; [reflexivity|]. simpl.
  rewrite !length_insert.
  split; [|split; [|split; [reflexivity|split; [|split; [reflexivity|]]]]].
  - unfold since. simpl. rewrite <- !(assoc_L (++)).
    by rewrite drop_app_length.
  - rewrite lookup_app_l by (by rewrite length_insert).
    by apply list_lookup_insert_eq.
  - rewrite lookup_app_r by (by rewrite length_insert).
    by rewrite length_insert, Nat.sub_diag.
  - unfold live_loops. simpl. destruct (threads w) as [|b h]; [done|].
    change (alive_from 1 (h ++ [true]) = alive_from 1 h ++ [S (length h)]).
    by rewrite alive_from_app.
Qed.

End SelectAutomatic.

Section SelectAutomaticExamples.

(** C6, amended, for the first re-selection after start-up. *)
Lemma select_auto_restarts_witness :
  exists w',
    select_theme "auto" (with_self main_thread (started calm_noon ∅ [])) =
      (Ret tt, w') /\
    map what (since (with_self main_thread (started calm_noon ∅ [])) w') =
      [EvEventSet 1; EvPrint MsgAutoEnabled; EvThreadStart 2] /\
    events w' !! 1%nat = Some true /\
    stop_event w' = 2%nat /\
    events w' !! stop_event w' = Some false /\
    threads w' = [true; true; true] /\
    live_loops w' = [1; 2]%nat.
Proof.
  apply (select_auto_restarts (with_self main_thread (started calm_noon ∅ []))).
  - simpl. lia.
  - discriminate.
Defined.

(** C6 as stated fails: with run-loop 1 live, selecting 'auto' is not
    a no-op; it starts run-loop 2 and two run-loops are live. *)
Lemma select_auto_counterexample :
  live_loops (with_self main_thread (started calm_noon ∅ [])) = [1%nat] /\
  live_loops
    (snd (select_theme "auto" (with_self main_thread (started calm_noon ∅ [])))) =
    [1; 2]%nat.
Proof. split; vm_compute; reflexivity. Qed.

(** What becomes of run-loop 1 afterwards.  The clock reads noon until
    instant 60 and 22:00:00 from then on; 'auto' is selected at instant
    10, while run-loop 1 sleeps.  Run-loop 1 never sees its flag: at
    instant 60 it looks up [stop_event], finds the new event, and goes
    on; it applies 'dark' at instant 60 and is still running when the
    fuel ends. *)
Example stale_loop_keeps_running :
  let w := started (calm_env (hms 6 30 0, hms 20 15 0) 0
                      (fun t => if t <? 60 then hms 12 0 0 else hms 22 0 0))
                   ∅ [(10, "auto")] in
  fst (run_thread 1 3 w) = OutOfFuel /\
  timeline (log (snd (run_thread 1 3 w))) =
    [Entry 1 0 (EvSleep 60); Entry 0 10 (EvEventSet 1);
     Entry 1 60 (EvSleep 60); Entry 1 120 (EvSleep 60)] /\
  calls_at 1 (log (snd (run_thread 1 3 w))) = [(0, "light"); (60, "dark")] /\
  live_loops (snd (run_thread 1 3 w)) = [1; 2]%nat.
Proof. repeat split; vm_compute; reflexivity. Qed.

End SelectAutomaticExamples.

(** ** Start-up *)

Section Startup.

Lemma TRANSLATIONS_complete :
  map_Forall (fun _ t => forall k, k ∈ ["dark"; "light"; "automatic"; "exit"] ->
                                   is_Some (t !! k))
             TRANSLATIONS.
Proof.
  unfold TRANSLATIONS. simpl.
  repeat (apply map_Forall_insert_2;
          [intros k Hk; repeat (apply elem_of_cons in Hk as [->|Hk];
                                [eexists; reflexivity|]);
           by apply elem_of_nil in Hk|]).
  apply map_Forall_empty.
Qed.

Lemma get_translations_complete (language k : string) :
  k ∈ ["dark"; "light"; "automatic"; "exit"] ->
  is_Some (get_translations language !! k).
Proof.
  intros Hk. unfold get_translations.
  destruct (TRANSLATIONS !! language) as [t|] eqn:Hl; simpl.
  - exact (map_Forall_lookup_1 _ _ _ _ TRANSLATIONS_complete Hl k Hk).
  - destruct (TRANSLATIONS !! "en") as [t|] eqn:Hen; [|discriminate].
    exact (map_Forall_lookup_1 _ _ _ _ TRANSLATIONS_complete Hen k Hk).
Qed.

Lemma get_current_theme_run (w : World) :
  exists r w',
    get_current_theme w = (Ret r, w') /\
    (is_Some r -> w' = w) /\
    (r = None -> exists e, w' = logged (EvPrint (MsgErrorCurrentTheme e)) w).
Proof.
  unfold get_current_theme. run_monad. simpl.
  repeat (case_match; simpl in *; simplify_eq);
    eexists _, _; (split; [reflexivity|]);
    (split; [intros [? ?]; first [reflexivity|discriminate]|]);
    intros ?; first [discriminate|eexists; reflexivity].
Qed.

#[local] Opaque get_translations.

(** C8, amended: at start-up the routine reads the theme Windows has
    applied.  When the reading fails it returns at once: no icon, no
    run-loop.  When the reading succeeds and the icon image loads it
    starts the automatic mode whatever the value read, which only
    chooses between the light and the dark icon. *)
Theorem startup_enters_automatic (w : World) :
  (fst (get_current_theme w) = Ret None ->
   exists w',
     create_tray_icon w = (Ret tt, w') /\
     threads w' = threads w /\ live_loops w' = live_loops w /\
     stop_event w' = stop_event w /\ icon w' = icon w) /\
  (forall value,
     fst (get_current_theme w) = Ret (Some value) ->
     raises (env w) (now w)
       (ImageOpen (if value =? 0 then "lib/icon_dark.png"
                   else "lib/icon_light.png")) = false ->
     exists w',
       create_tray_icon w = (Ret tt, w') /\
       threads w' = threads w ++ [true] /\
       stop_event w' = length (events w) /\
       events w' !! stop_event w' = Some false /\
       icon w' = Some (if value =? 0 then "lib/icon_dark.png"
                       else "lib/icon_light.png")).
Proof.
  destruct (get_current_theme_run w) as (r & w1 & Hget & Hsome & Hnone).
  unfold create_tray_icon, mbind, M_bind. rewrite Hget. simpl. split.
  - intros [= ->]. destruct (Hnone eq_refl) as [e ->].
    eexists. split; [reflexivity|]. repeat split; reflexivity.
  - intros value [= ->] Hopen. rewrite (Hsome (mk_is_Some _ _ eq_refl)).
    unfold Image_open, get_system_language, subscript. run_monad.
    assert (Hpath : "lib/icon_" +:+ (if value =? 0 then "dark" else "light")
                      +:+ ".png" =
                    if value =? 0 then "lib/icon_dark.png"
                    else "lib/icon_light.png")
      by (destruct (value =? 0); reflexivity).
    rewrite Hpath, Hopen. simpl.
    set (language := default "en" (ui_language (env w))).
    destruct (get_translations_complete language "dark") as [d Hd];
      [repeat constructor|].
    destruct (get_translations_complete language "light") as [l Hl];
      [repeat constructor|].
    destruct (get_translations_complete language "automatic") as [a Ha];
      [repeat constructor|].
    destruct (get_translations_complete language "exit") as [e He];
      [repeat constructor|].
    rewrite Hd, Hl, Ha, He. simpl.
    eexists. split; [reflexivity|]. simpl.
    repeat (split; [reflexivity|]). split; [|reflexivity].
    rewrite lookup_app_r by reflexivity. by rewrite Nat.sub_diag.
Qed.

End Startup.

Section StartupExamples.

(** C8, amended, on a machine whose registry has no
    [AppsUseLightTheme] value, and on machines where it is 0 and 1. *)
Lemma startup_enters_automatic_witness :
  (exists w',
     create_tray_icon (boot calm_noon ∅ []) = (Ret tt, w') /\
     threads w' = [true] /\ live_loops w' = [] /\
     stop_event w' = 0%nat /\ icon w' = None) /\
  (exists w',
     create_tray_icon (boot calm_noon {["AppsUseLightTheme" := 0]} []) =
       (Ret tt, w') /\
     threads w' = [true; true] /\ stop_event w' = 1%nat /\
     events w' !! stop_event w' = Some false /\
     icon w' = Some "lib/icon_dark.png") /\
  (exists w',
     create_tray_icon (boot calm_noon {["AppsUseLightTheme" := 1]} []) =
       (Ret tt, w') /\
     threads w' = [true; true] /\ stop_event w' = 1%nat /\
     events w' !! stop_event w' = Some false /\
     icon w' = Some "lib/icon_light.png").
Proof.
  split; [|split].
  - apply (proj1 (startup_enters_automatic (boot calm_noon ∅ []))).
    vm_compute. reflexivity.
  - apply (proj2 (startup_enters_automatic
                    (boot calm_noon {["AppsUseLightTheme" := 0]} [])) 0);
      vm_compute; reflexivity.
  - apply (proj2 (startup_enters_automatic
                    (boot calm_noon {["AppsUseLightTheme" := 1]} [])) 1);
      vm_compute; reflexivity.
Defined.

(** C8 as stated fails: when the theme cannot be read, the routine
    returns without starting a run-loop. *)
Lemma startup_counterexample :
  fst (get_current_theme (boot calm_noon ∅ [])) = Ret None /\
  fst (create_tray_icon (boot calm_noon ∅ [])) = Ret tt /\
  live_loops (snd (create_tray_icon (boot calm_noon ∅ []))) = [] /\
  applied_themes (map what (log (snd (create_tray_icon (boot calm_noon ∅ []))))) = [].
Proof. repeat split; vm_compute; reflexivity. Qed.

End StartupExamples.

(** * Further properties of the code *)

(** ** [set_windows_theme]: what a call leaves behind *)

Section ThemeWrites.

(** X1: when [set_windows_theme] returns [True] the theme was 'light' or
    'dark', both registry values hold 1 or 0 accordingly and no other
    value changed, the tray icon (if there is one) shows the matching
    image, and [get_current_theme] then reads that value back unless its
    own calls raise. *)
Theorem set_windows_theme_success (theme : string) (w w' : World) :
  set_windows_theme theme w = (Ret true, w') ->
  exists value icon_path,
    (theme = "light" /\ value = 1 /\ icon_path = "lib/icon_light.png" \/
     theme = "dark" /\ value = 0 /\ icon_path = "lib/icon_dark.png") /\
    registry w' !! "AppsUseLightTheme" = Some value /\
    registry w' !! "SystemUsesLightTheme" = Some value /\
    (forall name, name <> "AppsUseLightTheme" ->
                  name <> "SystemUsesLightTheme" ->
                  registry w' !! name = registry w !! name) /\
    icon w' = (if icon w is Some _ then Some icon_path else None) /\
    (raises (env w') (now w') (OpenKey KEY_READ) = false ->
     raises (env w') (now w') (QueryValueEx "AppsUseLightTheme") = false ->
     get_current_theme w' = (Ret (Some value), w')).
Proof.
  unfold set_windows_theme, SetValue, Image_open, PyStr.eq.
  run_monad. simpl. intros Hrun.
  destruct (String.eqb_spec theme "light") as [->|Hl];
    [|destruct (String.eqb_spec theme "dark") as [->|Hd]];
    repeat (case_match; simpl in *; simplify_eq);
    eexists _, _; (split; [by eauto|]);
    (split; [by simplify_map_eq|]); (split; [by simplify_map_eq|]);
    (split; [intros name ? ?; by simplify_map_eq|]);
    (split; [rewrite_raises; reflexivity|]);
    intros Ho Hq; unfold get_current_theme; run_monad; simpl in *;
    rewrite Ho; simpl; rewrite Hq; simpl; by simplify_map_eq.
Qed.

(** X1 for 'light' on a machine with a tray icon where nothing raises. *)
Lemma set_windows_theme_success_witness :
  exists value icon_path,
    ("light" = "light" /\ value = 1 /\ icon_path = "lib/icon_light.png" \/
     "light" = "dark" /\ value = 0 /\ icon_path = "lib/icon_dark.png") /\
    registry (snd (set_windows_theme "light"
                     (with_icon (Some "lib/icon_dark.png") calm_machine)))
      !! "AppsUseLightTheme" = Some value /\
    icon (snd (set_windows_theme "light"
                 (with_icon (Some "lib/icon_dark.png") calm_machine))) =
      Some icon_path.
Proof.
  destruct (set_windows_theme_success "light"
              (with_icon (Some "lib/icon_dark.png") calm_machine)
              (snd (set_windows_theme "light"
                      (with_icon (Some "lib/icon_dark.png") calm_machine))))
    as (value & icon_path & Hth & Ha & _ & _ & Hi & _);
    [vm_compute; reflexivity|].
  exists value, icon_path. split; [exact Hth|]. split; [exact Ha|exact Hi].
Defined.

(** X2: [set_windows_theme] does not undo what it has written when a
    later call raises.  If writing [SystemUsesLightTheme] raises, the call
    returns [False] with [AppsUseLightTheme] already changed and nothing
    broadcast; if only the settings broadcast raises, it returns [False]
    with both values written and the icon changed. *)
Theorem set_windows_theme_no_rollback (theme : string) (value : Z)
    (icon_path : string) (w : World) :
  theme_choice theme = Some (value, icon_path) ->
  raises (env w) (now w) (OpenKey KEY_WRITE) = false ->
  raises (env w) (now w) (SetValueEx "AppsUseLightTheme") = false ->
  (raises (env w) (now w) (SetValueEx "SystemUsesLightTheme") = true ->
   exists w',
     set_windows_theme theme w = (Ret false, w') /\
     registry w' = <["AppsUseLightTheme" := value]> (registry w) /\
     icon w' = icon w /\
     ~ In EvBroadcast (map what (since w w'))) /\
  (raises (env w) (now w) (SetValueEx "SystemUsesLightTheme") = false ->
   raises (env w) (now w) (ImageOpen icon_path) = false ->
   raises (env w) (now w) SendMessageW = true ->
   exists w',
     set_windows_theme theme w = (Ret false, w') /\
     registry w' = <["SystemUsesLightTheme" := value]>
                     (<["AppsUseLightTheme" := value]> (registry w)) /\
     icon w' = (if icon w is Some _ then Some icon_path else None) /\
     ~ In EvBroadcast (map what (since w w'))).
Proof.
  intros Hchoice Hopen Happs. unfold theme_choice in Hchoice.
  unfold set_windows_theme, SetValue, Image_open. run_monad. simpl.
  rewrite Hopen. simpl.
  destruct (PyStr.eq theme "light");
    [|destruct (PyStr.eq theme "dark"); [|discriminate]];
    simplify_eq; simpl; rewrite Happs; simpl; (split;
      [intros Hsys; rewrite Hsys; simpl; eexists; (split; [reflexivity|]);
       simpl; (split; [reflexivity|]); (split; [reflexivity|]);
       (erewrite since_app
          by (simpl; rewrite <- ?(assoc_L (++)); reflexivity));
       simpl; intuition discriminate
      |intros Hsys Himg Hsend; rewrite Hsys; simpl;
       destruct (icon w) eqn:Hic; simpl; rewrite ?Himg; simpl;
       rewrite Hsend; simpl;
       eexists; (split; [reflexivity|]); simpl;
       (split; [reflexivity|]); (split; [by rewrite ?Hic|]);
       (erewrite since_app
          by (simpl; rewrite <- ?(assoc_L (++)); reflexivity));
       simpl; intuition discriminate]).
Qed.

(** X2 on a machine where only the second registry write raises. *)
Lemma set_windows_theme_no_rollback_witness :
  exists w',
    set_windows_theme "dark"
      (started (mkEnv (fun _ c => if c is SetValueEx "SystemUsesLightTheme"
                                  then true else false)
                      (fun _ => None) (fun _ _ => None) (fun _ => None)
                      noon None)
               {["AppsUseLightTheme" := 1; "SystemUsesLightTheme" := 1]} []) =
      (Ret false, w') /\
    registry w' = {["AppsUseLightTheme" := 0; "SystemUsesLightTheme" := 1]} /\
    icon w' = None.
Proof.
  destruct (set_windows_theme_no_rollback "dark" 0 "lib/icon_dark.png"
              (started (mkEnv (fun _ c => if c is SetValueEx "SystemUsesLightTheme"
                                          then true else false)
                              (fun _ => None) (fun _ _ => None) (fun _ => None)
                              noon None)
                       {["AppsUseLightTheme" := 1; "SystemUsesLightTheme" := 1]} []))
    as [Hsys _]; [reflexivity|reflexivity|reflexivity|].
  destruct (Hsys eq_refl) as (w' & Hrun & Hreg & Hicon & _).
  exists w'. split; [exact Hrun|]. split; [|exact Hicon].
  rewrite Hreg. vm_compute. reflexivity.
Defined.

End ThemeWrites.

(** ** The menu and the loops in any environment *)

Section AnyEnvironment.

Lemma set_windows_theme_polling (sunrise sunset theme : string) (w : World) :
  theme = "light" \/ theme = "dark" ->
  exists b l w',
    set_windows_theme theme w = (Ret b, w') /\
    same_control w w' /\
    log w' = log w ++ l /\
    Forall (fun x => who x = self w /\
                     polling_event sunrise sunset (what x) = true) l /\
    sleeps (map what l) = [].
Proof.
  unfold set_windows_theme, SetValue, Image_open, same_control.
  run_monad. simpl.
  intros [-> | ->]; simpl;
    repeat (case_match; simpl in *; simplify_eq);
    eexists _, _, _; (split; [reflexivity|]); simpl;
    (split; [tauto|]); rewrite <- ?(assoc_L (++)); simpl;
    (split; [reflexivity|]); (split; [repeat constructor|reflexivity]).
Qed.

Lemma desired_theme_cases (sunrise local_time sunset : string) :
  desired_theme sunrise local_time sunset = "light" \/
  desired_theme sunrise local_time sunset = "dark".
Proof. unfold desired_theme. destruct (_ && _); auto. Qed.

Lemma status_is_polling (sunrise sunset t : string) :
  polling_event sunrise sunset (EvPrint (MsgStatus sunrise t sunset)) = true.
Proof. simpl. unfold PyStr.eq. by rewrite !String.eqb_refl. Qed.

Lemma tick_polling (sunrise sunset : string) (applied : option string)
    (w : World) :
  exists a l w',
    tick sunrise sunset applied w = (Ret a, w') /\
    same_control w w' /\
    log w' = log w ++ l /\
    Forall (fun x => who x = self w /\
                     polling_event sunrise sunset (what x) = true) l /\
    sleeps (map what l) = [].
Proof.
  unfold tick, get_local_time. run_monad. simpl.
  set (d := desired_theme sunrise _ sunset).
  destruct (PyStr.opt_ne d applied).
  - match goal with |- context [set_windows_theme d ?w1] =>
      destruct (set_windows_theme_polling sunrise sunset d w1
                  (desired_theme_cases _ _ _))
        as (b & l & w' & Hrun & Hc & Hlog & Hl & Hsl)
    end.
    rewrite Hrun. simpl in *.
    eexists (if b then Some d else applied), (_ :: l), w'.
    split; [destruct b; reflexivity|]. split; [exact Hc|].
    split; [rewrite Hlog, <- (assoc_L (++)); reflexivity|].
    split; [|exact Hsl].
    constructor; [split; [reflexivity|apply status_is_polling]|exact Hl].
  - eexists _, [_], _. split; [reflexivity|].
    split; [unfold same_control; tauto|]. split; [reflexivity|].
    split; [|reflexivity]. repeat constructor. apply status_is_polling.
Qed.

Lemma poll_loop_any (fuel : nat) (sunrise sunset : string) :
  forall (applied : option string) (w : World),
    self w <> main_thread ->
    exists r l w',
      poll_loop fuel sunrise sunset applied w = (r, w') /\
      (r = Ret tt \/ r = OutOfFuel) /\
      (r = Ret tt -> events w' !! stop_event w' = Some true) /\
      env w' = env w /\ self w' = self w /\
      log w' = log w ++ l /\
      Forall (fun ev => polling_event sunrise sunset ev = true)
             (events_of (self w) l) /\
      now w' = now w + 60 * Z.of_nat (length (sleeps (events_of (self w) l))).
Proof.
  induction fuel as [|fuel IH]; intros applied w Hself.
  - simpl. unfold stop_event_is_set. run_monad.
    destruct (events w !! stop_event w) as [[|]|] eqn:Hflag; simpl;
      eexists _, [], w; (split; [reflexivity|]);
      rewrite (right_id_L [] (++));
      (split; [auto|]); (split; [intros ?; first [assumption|discriminate]|]);
      repeat (split; [reflexivity|]); (split; [constructor|simpl; lia]).
  - simpl. unfold stop_event_is_set. run_monad.
    assert (Hstop : default false (events w !! stop_event w) = true ->
                    events w !! stop_event w = Some true)
      by (destruct (events w !! stop_event w) as [[|]|]; simpl; congruence).
    destruct (default false (events w !! stop_event w)) eqn:Hflag.
    { eexists _, [], w. split; [reflexivity|].
      rewrite (right_id_L [] (++)). split; [auto|]. split; [auto|].
      repeat (split; [reflexivity|]). split; [constructor|simpl; lia]. }
    clear Hstop.
    destruct (tick_polling sunrise sunset applied w)
      as (a & l1 & w1 & Hrun1 & Hc1 & Hlog1 & Hl1 & Hsl1).
    destruct Hc1 as (He1 & _ & _ & _ & Hn1 & Hself1 & _).
    destruct (time_sleep_run 60 w1)
      as (l2 & w2 & Hrun2 & He2 & Hself2 & Hn2 & Hlog2 & Hl2 & _).
    destruct (IH a w2) as (r & l3 & w3 & Hrun3 & Hr & Hret & He3 & Hself3
                             & Hlog3 & Hl3 & Hn3);
      [congruence|].
    rewrite Hrun1, Hrun2, Hrun3.
    exists r, (l1 ++ Entry (self w1) (now w1) (EvSleep 60) :: l2 ++ l3), w3.
    split; [reflexivity|]. split; [exact Hr|]. split; [exact Hret|].
    split; [congruence|]. split; [congruence|].
    split; [rewrite Hlog3, Hlog2, Hlog1, <- !(assoc_L (++)); reflexivity|].
    assert (Hown : events_of (self w) l1 = map what l1)
      by (apply events_of_own; eapply Forall_impl; [exact Hl1|];
          simpl; tauto).
    assert (Hev : events_of (self w)
                    (l1 ++ Entry (self w1) (now w1) (EvSleep 60) :: l2 ++ l3) =
                  map what l1 ++ EvSleep 60 :: events_of (self w) l3).
    { rewrite events_of_app, Hown.
      rewrite events_of_cons_own by exact Hself1.
      rewrite events_of_app, (events_of_foreign _ l2 Hself Hl2). reflexivity. }
    rewrite Hev. split.
    + apply Forall_app. split.
      * apply Forall_map. eapply Forall_impl; [exact Hl1|]. simpl. tauto.
      * constructor; [reflexivity|].
        replace (self w) with (self w2) by congruence. exact Hl3.
    + rewrite sleeps_app, Hsl1. simpl.
      replace (self w) with (self w2) by congruence. lia.
Qed.

(** X5: whatever the environment and the menu do, the polling loop does
    not raise; what it writes to the log itself is its status line with
    the schedule it was started with, calls of [set_windows_theme] on
    'light' or 'dark' with their effects, and sleeps of 60 s, so it never
    asks for the schedule again, never sets an event and never starts a
    thread; it returns only when the event then bound to [stop_event] is
    set; and it has slept 60 s for each turn. *)
Theorem poll_loop_in_any_environment (fuel : nat) (sunrise sunset : string)
    (applied : option string) (w : World) :
  self w <> main_thread ->
  exists r l w',
    poll_loop fuel sunrise sunset applied w = (r, w') /\
    (r = Ret tt \/ r = OutOfFuel) /\
    (r = Ret tt -> events w' !! stop_event w' = Some true) /\
    env w' = env w /\ self w' = self w /\
    log w' = log w ++ l /\
    Forall (fun ev => polling_event sunrise sunset ev = true)
           (events_of (self w) l) /\
    now w' = now w + 60 * Z.of_nat (length (sleeps (events_of (self w) l))).
Proof. apply poll_loop_any. Qed.

(** X5 for the loop of the four clock readings. *)
Lemma poll_loop_in_any_environment_witness :
  exists r l w',
    poll_loop 10 "06:30:00" "20:15:00" None four_ticks = (r, w') /\
    (r = Ret tt \/ r = OutOfFuel) /\
    (r = Ret tt -> events w' !! stop_event w' = Some true) /\
    env w' = env four_ticks /\ self w' = self four_ticks /\
    log w' = log four_ticks ++ l /\
    Forall (fun ev => polling_event "06:30:00" "20:15:00" ev = true)
           (events_of (self four_ticks) l) /\
    now w' = now four_ticks +
             60 * Z.of_nat (length (sleeps (events_of (self four_ticks) l))).
Proof.
  apply (poll_loop_in_any_environment 10 "06:30:00" "20:15:00" None four_ticks).
  vm_compute. discriminate.
Defined.

Lemma write_path_clear_calm (theme : string) (w : World) :
  (forall t c, raises (env w) t c = false) ->
  theme = "light" \/ theme = "dark" ->
  write_path_clear theme w = true.
Proof.
  intros Hcalm [-> | ->]; unfold write_path_clear, write_path; simpl;
    destruct (icon w); simpl; by rewrite !Hcalm.
Qed.

(** X6: on a machine where no call into Windows raises, the polling loop
    never calls [set_windows_theme] with the theme of its previous call:
    each call changes the theme, the first one included when the loop
    starts with a theme already applied. *)
Theorem poll_loop_applies_changes_only (fuel : nat) (sunrise sunset : string) :
  forall (applied : option string) (w : World),
    self w <> main_thread ->
    (forall t c, raises (env w) t c = false) ->
    exists r l w',
      poll_loop fuel sunrise sunset applied w = (r, w') /\
      env w' = env w /\ self w' = self w /\
      log w' = log w ++ l /\
      changes applied (applied_themes (events_of (self w) l)).
Proof.
  induction fuel as [|fuel IH]; intros applied w Hself Hcalm.
  - simpl. unfold stop_event_is_set. run_monad.
    destruct (default false (events w !! stop_event w));
      eexists _, [], w; (split; [reflexivity|]);
      rewrite (right_id_L [] (++)); repeat split.
  - simpl. unfold stop_event_is_set. run_monad.
    destruct (default false (events w !! stop_event w)).
    { eexists _, [], w. split; [reflexivity|].
      rewrite (right_id_L [] (++)). repeat split. }
    destruct (tick_run sunrise sunset applied w)
      as (l1 & w1 & Hrun1 & Hc1 & Hlog1 & Hl1 & Ha1 & _).
    destruct Hc1 as (He1 & _ & _ & _ & Hn1 & Hself1 & _).
    destruct (time_sleep_run 60 w1)
      as (l2 & w2 & Hrun2 & He2 & Hself2 & Hn2 & Hlog2 & Hl2 & _).
    rewrite Hrun1, Hrun2.
    rewrite (write_path_clear_calm (desired_in sunrise sunset w) w Hcalm
               (desired_theme_cases _ _ _)).
    match goal with |- context [poll_loop fuel sunrise sunset ?a w2] =>
      destruct (IH a w2) as (r & l3 & w3 & Hrun3 & He3 & Hself3 & Hlog3 & Hch);
        [congruence | intros t c; rewrite He2, He1; apply Hcalm |]
    end.
    rewrite Hrun3.
    exists r, (l1 ++ Entry (self w1) (now w1) (EvSleep 60) :: l2 ++ l3), w3.
    split; [reflexivity|]. split; [congruence|]. split; [congruence|].
    split; [rewrite Hlog3, Hlog2, Hlog1, <- !(assoc_L (++)); reflexivity|].
    rewrite events_of_app, (events_of_own _ _ Hl1).
    rewrite events_of_cons_own by exact Hself1.
    rewrite events_of_app, (events_of_foreign _ l2 Hself Hl2).
    rewrite applied_themes_app, Ha1. simpl.
    replace (self w) with (self w2) by congruence.
    destruct (PyStr.opt_ne (desired_in sunrise sunset w) applied) eqn:Hne.
    + simpl. split; [by apply opt_ne_true|exact Hch].
    + simpl. apply opt_ne_false in Hne. rewrite Hne in *. exact Hch.
Qed.

(** X6 for the loop of the four clock readings: dark, light, dark. *)
Lemma poll_loop_applies_changes_only_witness :
  exists r l w',
    poll_loop 10 "06:30:00" "20:15:00" None four_ticks = (r, w') /\
    env w' = env four_ticks /\ self w' = self four_ticks /\
    log w' = log four_ticks ++ l /\
    changes None (applied_themes (events_of (self four_ticks) l)).
Proof.
  apply (poll_loop_applies_changes_only 10 "06:30:00" "20:15:00" None four_ticks).
  - vm_compute. discriminate.
  - reflexivity.
Defined.

(** X7: a run-loop whose event is already set when it starts makes its
    one attempt at the schedule and returns: it does not sleep, applies
    no theme and takes no time, whether the attempt succeeds (the polling
    loop is left at its first test) or fails (the first loop is left at
    its first test, with the give-up notice). *)
Theorem automatic_theme_cancelled_at_start (fuel : nat) (w : World) :
  events w !! stop_event w = Some true ->
  exists w',
    automatic_theme fuel w = (Ret tt, w') /\
    events_of (self w) (since w w') =
      EvGeoRequest ::
      (if resolves_at (env w) (now w) is Some _ then []
       else [EvPrint MsgGiveUp]) /\
    now w' = now w /\ registry w' = registry w /\ icon w' = icon w /\
    events w' = events w /\ threads w' = threads w.
Proof.
  intros Hset. unfold automatic_theme, mbind, M_bind. cbv zeta.
  rewrite automatic_data_run.
  rewrite (resolve_loop_stopped _ _ _ (logged EvGeoRequest w)) by exact Hset.
  destruct (resolves_at (env w) (now w)) as [[sunrise sunset]|].
  - rewrite poll_loop_stopped by exact Hset.
    eexists. split; [reflexivity|]. split; [|repeat split].
    erewrite since_app by reflexivity.
    by rewrite events_of_cons_own.
  - eexists. split; [reflexivity|]. split; [|repeat split].
    erewrite since_app by (simpl; rewrite <- (assoc_L (++)); reflexivity).
    cbn [app]. rewrite events_of_cons_own by reflexivity.
    by rewrite events_of_cons_own.
Qed.

(** X7 for a loop on a machine off the network, its event set. *)
Lemma automatic_theme_cancelled_at_start_witness :
  exists w',
    automatic_theme 5 (with_events <[1%nat := true]> offline) = (Ret tt, w') /\
    events_of 1 (since (with_events <[1%nat := true]> offline) w') =
      [EvGeoRequest; EvPrint MsgGiveUp] /\
    now w' = 0.
Proof.
  destruct (automatic_theme_cancelled_at_start 5
              (with_events <[1%nat := true]> offline))
    as (w' & Hrun & Hev & Hn & _); [reflexivity|].
  exists w'. split; [exact Hrun|]. split; [exact Hev|exact Hn].
Defined.

Lemma resolve_loop_unfold (fuel : nat) (backoff : Z) (w : World) :
  resolve_loop (S fuel) backoff 600 None w =
    if default false (events w !! stop_event w) then (Ret None, w)
    else (print (MsgRetrying backoff);; time_sleep backoff;;
          attempt_loop fuel (Z.min (backoff * 2) 600) 600) w.
Proof.
  simpl. unfold stop_event_is_set, attempt_loop. run_monad.
  destruct (default false (events w !! stop_event w)); reflexivity.
Qed.

Lemma resolve_loop_resolved (fuel : nat) (backoff : Z) (s : string * string)
    (w : World) :
  resolve_loop fuel backoff 600 (Some s) w = (Ret (Some s), w).
Proof. destruct fuel; reflexivity. Qed.

Lemma flag_is_set (w : World) :
  default false (events w !! stop_event w) = true ->
  events w !! stop_event w = Some true.
Proof. destruct (events w !! stop_event w) as [[|]|]; simpl; congruence. Qed.

Lemma attempt_loop_any (fuel : nat) :
  forall (j : nat) (w : World),
    self w <> main_thread ->
    exists r l w' m,
      attempt_loop fuel (backoff_seq j) 600 w = (r, w') /\
      resolution_ends j fuel m w r l w'.
Proof.
  induction fuel as [|fuel IH]; intros j w Hself;
    unfold attempt_loop, mbind, M_bind; rewrite automatic_data_run;
    destruct (resolves_at (env w) (now w)) as [s|] eqn:Hres.
  - rewrite resolve_loop_resolved.
    eexists (Ret (Some s)), [Entry (self w) (now w) EvGeoRequest], _, 0%nat.
    split; [reflexivity|]. unfold resolution_ends. simpl.
    rewrite events_of_cons_own by reflexivity.
    repeat split; [lia|exact Hres|repeat constructor].
  - simpl. unfold stop_event_is_set. run_monad. simpl.
    destruct (default false (events w !! stop_event w)) eqn:Hflag;
      eexists _, [Entry (self w) (now w) EvGeoRequest], _, 0%nat;
      (split; [reflexivity|]); unfold resolution_ends; simpl;
      rewrite events_of_cons_own by reflexivity;
      repeat split; try lia; try (by apply flag_is_set);
      repeat constructor.
  - rewrite resolve_loop_resolved.
    eexists (Ret (Some s)), [Entry (self w) (now w) EvGeoRequest], _, 0%nat.
    split; [reflexivity|]. unfold resolution_ends. simpl.
    rewrite events_of_cons_own by reflexivity.
    repeat split; [lia|exact Hres|repeat constructor].
  - rewrite resolve_loop_unfold. simpl.
    destruct (default false (events w !! stop_event w)) eqn:Hflag.
    { eexists _, [Entry (self w) (now w) EvGeoRequest], _, 0%nat.
      split; [reflexivity|]. unfold resolution_ends. simpl.
      rewrite events_of_cons_own by reflexivity.
      repeat split; [lia|by apply flag_is_set|repeat constructor]. }
    run_monad. simpl.
    match goal with |- context [time_sleep _ ?w2] =>
      destruct (time_sleep_run (backoff_seq j) w2)
        as (l2 & w3 & Hrun2 & He2 & Hself2 & Hn2 & Hlog2 & Hl2 & _)
    end.
    rewrite Hrun2. simpl in *.
    change (Z.min (backoff_seq j * 2) 600) with (backoff_seq (S j)).
    destruct (IH (S j) w3) as (r & l3 & w' & m & Hrun3 & Hm & Hr & He3 & Hself3
                                 & Hlog3 & Hl3 & Hsl3 & Hat3 & Hn3);
      [congruence|].
    rewrite Hrun3.
    exists r, (Entry (self w) (now w) EvGeoRequest
               :: Entry (self w) (now w) (EvPrint (MsgRetrying (backoff_seq j)))
               :: Entry (self w) (now w) (EvSleep (backoff_seq j))
               :: l2 ++ l3), w', (S m).
    split; [reflexivity|]. unfold resolution_ends.
    rewrite !events_of_cons_own by reflexivity.
    rewrite events_of_app, (events_of_foreign _ l2 Hself Hl2). simpl.
    rewrite Hself2 in Hl3, Hsl3, Hat3.
    split; [lia|]. split; [destruct r as [[?|]| |]; first [assumption|lia]|].
    split; [congruence|]. split; [congruence|].
    split; [rewrite Hlog3, Hlog2, <- !(assoc_L (++)); reflexivity|].
    split; [repeat constructor; exact Hl3|].
    split; [by rewrite Hsl3|]. split; [by rewrite Hat3|].
    rewrite Hn3, Hn2. reflexivity.
Qed.

Lemma backoff_seq_closed (k : nat) :
  backoff_seq k = Z.min (30 * 2 ^ Z.of_nat k) 600.
Proof.
  induction k as [|k IH]; [reflexivity|].
  simpl backoff_seq. rewrite IH, Nat2Z.inj_succ, Z.pow_succ_r by lia.
  assert (0 < 2 ^ Z.of_nat k) by (apply Z.pow_pos_nonneg; lia). lia.
Qed.

(** X8: whatever the environment and the menu do, the first loop does
    not raise and applies no theme: it only asks for the schedule, prints
    its retry notice and sleeps.  After [m] waits it has made [m + 1]
    attempts, and wait number [k] lasted [min(30 * 2^k, 600)] seconds:
    30, 60, 120, 240, 480, then 600 each time.  It returns a schedule only
    from a successful last attempt, and returns without one only when the
    event then bound to [stop_event] is set. *)
Theorem attempt_loop_in_any_environment (fuel : nat) (w : World) :
  self w <> main_thread ->
  exists r l w' m,
    attempt_loop fuel 30 600 w = (r, w') /\
    (m <= fuel)%nat /\
    (forall e, r <> Raise e) /\
    (r = Ret None -> events w' !! stop_event w' = Some true) /\
    (forall s, r = Ret (Some s) -> resolves_at (env w') (now w') = Some s) /\
    log w' = log w ++ l /\
    Forall (fun ev => resolving_event ev = true) (events_of (self w) l) /\
    sleeps (events_of (self w) l) =
      map (fun k => Z.min (30 * 2 ^ Z.of_nat k) 600) (seq 0 m) /\
    attempts (events_of (self w) l) = S m /\
    calls_during (self w) w w' = [].
Proof.
  intros Hself.
  destruct (attempt_loop_any fuel 0 w Hself)
    as (r & l & w' & m & Hrun & Hm & Hr & _ & _ & Hlog & Hl & Hsl & Hat & _).
  exists r, l, w', m. split; [exact Hrun|]. split; [exact Hm|].
  split; [intros e ->; exact Hr|]. split; [intros ->; exact Hr|].
  split; [intros s ->; exact Hr|]. split; [exact Hlog|].
  split; [exact Hl|]. split.
  - rewrite Hsl. apply map_ext. intros k. apply backoff_seq_closed.
  - split; [exact Hat|]. unfold calls_during. rewrite (since_app _ _ _ Hlog).
    clear -Hl. induction Hl as [|ev evs Hev _ IH]; [reflexivity|].
    destruct ev; simpl in *; first [discriminate|exact IH].
Qed.

(** X8 on the machine whose network is down until instant 90. *)
Lemma attempt_loop_in_any_environment_witness :
  exists r l w' m,
    attempt_loop 4 30 600 (started flaky_env ∅ []) = (r, w') /\
    (m <= 4)%nat /\
    (forall e, r <> Raise e) /\
    (r = Ret None -> events w' !! stop_event w' = Some true) /\
    (forall s, r = Ret (Some s) -> resolves_at (env w') (now w') = Some s) /\
    log w' = log (started flaky_env ∅ []) ++ l /\
    Forall (fun ev => resolving_event ev = true)
           (events_of (self (started flaky_env ∅ [])) l) /\
    sleeps (events_of (self (started flaky_env ∅ [])) l) =
      map (fun k => Z.min (30 * 2 ^ Z.of_nat k) 600) (seq 0 m) /\
    attempts (events_of (self (started flaky_env ∅ [])) l) = S m /\
    calls_during (self (started flaky_env ∅ [])) (started flaky_env ∅ []) w' = [].
Proof.
  apply (attempt_loop_in_any_environment 4 (started flaky_env ∅ [])).
  vm_compute. discriminate.
Defined.

(** X14: whatever the environment and the menu do, [automatic_theme]
    does not raise, and it returns only when the event then bound to
    [stop_event] is set.  What it writes to the log itself is first the
    requests, notices and sleeps of the first loop and then either
    nothing more, or the give-up notice, or the ticks of the polling loop
    for one schedule: no theme is applied before the schedule is there,
    and the schedule is not asked for again once the polling has begun. *)
Theorem automatic_theme_in_any_environment (fuel : nat) (w : World) :
  self w <> main_thread ->
  exists r l1 l2 w',
    automatic_theme fuel w = (r, w') /\
    (r = Ret tt \/ r = OutOfFuel) /\
    (r = Ret tt -> events w' !! stop_event w' = Some true) /\
    events_of (self w) (since w w') = l1 ++ l2 /\
    Forall (fun ev => resolving_event ev = true) l1 /\
    (l2 = [] \/ l2 = [EvPrint MsgGiveUp] \/
     exists sunrise sunset,
       Forall (fun ev => polling_event sunrise sunset ev = true) l2).
Proof.
  intros Hself.
  destruct (attempt_loop_any fuel 0 w Hself)
    as (r1 & l & w1 & m & Hrun & _ & Hr & He & Hself1 & Hlog & Hl & _).
  change (backoff_seq 0) with 30 in Hrun.
  unfold automatic_theme, attempt_loop, mbind, M_bind in *. cbv zeta.
  rewrite automatic_data_run in *. rewrite Hrun.
  destruct r1 as [[[sunrise sunset]|]|e|]; [| |exfalso; exact Hr|].
  - destruct (poll_loop_any fuel sunrise sunset None w1)
      as (r & l3 & w' & Hrun3 & Hr3 & Hret & _ & _ & Hlog3 & Hl3 & _);
      [congruence|].
    rewrite Hrun3. exists r, (events_of (self w) l), (events_of (self w) l3), w'.
    split; [reflexivity|]. split; [exact Hr3|]. split; [exact Hret|].
    split; [|split; [exact Hl|]].
    + erewrite since_app by (rewrite Hlog3, Hlog, <- (assoc_L (++)); reflexivity).
      apply events_of_app.
    + right. right. exists sunrise, sunset. by rewrite <- Hself1.
  - eexists (Ret tt), (events_of (self w) l), [EvPrint MsgGiveUp], _.
    split; [reflexivity|]. split; [auto|]. split; [intros _; exact Hr|].
    split; [|split; [exact Hl|auto]].
    erewrite since_app by (simpl; rewrite Hlog, <- (assoc_L (++)); reflexivity).
    rewrite events_of_app. f_equal.
    by rewrite events_of_cons_own by exact Hself1.
  - exists OutOfFuel, (events_of (self w) l), [], w1.
    split; [reflexivity|]. split; [auto|]. split; [discriminate|].
    split; [|split; [exact Hl|auto]].
    rewrite (since_app _ _ _ Hlog). by rewrite (right_id_L [] (++)).
Qed.

(** X14 for run-loop 1 of the four clock readings. *)
Lemma automatic_theme_in_any_environment_witness :
  exists r l1 l2 w',
    automatic_theme 10 four_ticks = (r, w') /\
    (r = Ret tt \/ r = OutOfFuel) /\
    (r = Ret tt -> events w' !! stop_event w' = Some true) /\
    events_of (self four_ticks) (since four_ticks w') = l1 ++ l2 /\
    Forall (fun ev => resolving_event ev = true) l1 /\
    (l2 = [] \/ l2 = [EvPrint MsgGiveUp] \/
     exists sunrise sunset,
       Forall (fun ev => polling_event sunrise sunset ev = true) l2).
Proof.
  apply (automatic_theme_in_any_environment 10 four_ticks).
  vm_compute. discriminate.
Defined.

End AnyEnvironment.

(** ** Selections from the menu *)

Section MenuSelections.

Lemma set_windows_theme_invalid (theme : string) (w : World) :
  theme <> "light" -> theme <> "dark" ->
  registry (snd (set_windows_theme theme w)) = registry w /\
  icon (snd (set_windows_theme theme w)) = icon w.
Proof.
  intros Hl Hd. apply String.eqb_neq in Hl, Hd.
  unfold set_windows_theme. run_monad. simpl.
  unfold PyStr.eq. rewrite Hl, Hd. simpl.
  destruct (raises (env w) (now w) (OpenKey KEY_WRITE)); split; reflexivity.
Qed.

(** X3: selecting a theme other than 'auto' sets the event bound to
    [stop_event], leaves the binding, the events and the threads as they
    are, and calls [set_windows_theme] once, with that theme.  A theme
    that is neither 'light' nor 'dark' still sets the event, so it stops
    the automatic mode, and writes nothing. *)
Theorem select_theme_manual_selection (theme : string) (w : World) :
  theme <> "auto" ->
  (stop_event w < length (events w))%nat ->
  exists w',
    select_theme theme w = (Ret tt, w') /\
    events w' !! stop_event w' = Some true /\
    stop_event w' = stop_event w /\
    length (events w') = length (events w) /\
    threads w' = threads w /\
    calls_during (self w) w w' = [theme] /\
    (theme <> "light" -> theme <> "dark" ->
     registry w' = registry w /\ icon w' = icon w).
Proof.
  intros Hm Hwf. apply String.eqb_neq in Hm.
  unfold select_theme, stop_event_set, PyStr.eq. rewrite Hm.
  run_monad. simpl.
  match goal with |- context [set_windows_theme theme ?w1] =>
    pose proof (set_windows_theme_invalid theme w1) as Hinv;
    destruct (set_windows_theme_run theme w1)
      as (l & w' & Hrun & Hc & Hlog & Hwho & Ha & _)
  end.
  rewrite Hrun in *. destruct Hc as (_ & Hev & Hs & Ht & _ & _ & _).
  simpl in *. exists w'. split; [reflexivity|].
  split; [rewrite Hs, Hev; by apply list_lookup_insert_eq|].
  split; [exact Hs|]. split; [by rewrite Hev, length_insert|].
  split; [exact Ht|]. split; [|exact Hinv].
  unfold calls_during. erewrite since_app
    by (rewrite Hlog, <- !(assoc_L (++)); reflexivity).
  cbn [app]. rewrite !events_of_cons_own by reflexivity.
  rewrite (events_of_own _ _ Hwho). simpl. by rewrite Ha.
Qed.

(** X3 for the theme 'blue', picked while run-loop 1 is live. *)
Lemma select_theme_manual_selection_witness :
  exists w',
    select_theme "blue" (with_self main_thread calm_machine) = (Ret tt, w') /\
    events w' !! stop_event w' = Some true /\
    stop_event w' = 1%nat /\
    length (events w') = 2%nat /\
    threads w' = [true; true] /\
    calls_during 0 (with_self main_thread calm_machine) w' = ["blue"] /\
    registry w' = ∅ /\ icon w' = None.
Proof.
  destruct (select_theme_manual_selection "blue"
              (with_self main_thread calm_machine))
    as (w' & Hrun & Hset & Hs & Hlen & Ht & Hcalls & Hreg);
    [discriminate|vm_compute; lia|].
  exists w'. do 6 (split; [assumption|]). apply Hreg; discriminate.
Defined.

(** X4: when 'auto' is selected again while a run-loop sleeps in its
    polling loop, that run-loop is not stopped.  Its event is set, but
    [stop_event] is bound to the new event by the time it wakes, so its
    test finds a clear flag and it goes on with the next tick. *)
Theorem reselected_auto_keeps_old_loop (fuel : nat) (sunrise sunset : string)
    (applied : option string) (t : Z) (rest : list (Z * string)) (w : World) :
  (stop_event w < length (events w))%nat ->
  pending w = (t, "auto") :: rest ->
  t <= now w + 60 ->
  due_until (now w + 60) rest = [] ->
  exists w1,
    time_sleep 60 w = (Ret tt, w1) /\
    now w1 = now w + 60 /\
    events w1 !! stop_event w = Some true /\
    stop_event w1 = length (events w) /\
    stop_event_is_set w1 = (Ret false, w1) /\
    resume_tick_sleep (S fuel) sunrise sunset applied w =
      (a ← tick sunrise sunset applied;
       resume_tick_sleep fuel sunrise sunset a) w1 /\
    fst (resume_tick_sleep 0 sunrise sunset applied w) = OutOfFuel.
Proof.
  intros Hwf Hp Hle Hrest.
  assert (Hsleep : exists w1,
             time_sleep 60 w = (Ret tt, w1) /\
             now w1 = now w + 60 /\
             events w1 = <[stop_event w := true]> (events w) ++ [false] /\
             stop_event w1 = length (events w)).
  { unfold time_sleep. rewrite Hp. simpl due_until.
    rewrite (proj2 (Z.leb_le _ _) Hle), Hrest.
    eexists. split; [reflexivity|]. simpl. rewrite length_insert.
    repeat split. }
  destruct Hsleep as (w1 & Hrun & Hn & Hev & Hs).
  assert (Hclear : events w1 !! stop_event w1 = Some false).
  { rewrite Hev, Hs, lookup_app_r by (by rewrite length_insert).
    by rewrite length_insert, Nat.sub_diag. }
  exists w1. split; [exact Hrun|]. split; [exact Hn|]. split.
  { rewrite Hev, lookup_app_l by (by rewrite length_insert).
    by apply list_lookup_insert_eq. }
  split; [exact Hs|]. split.
  { unfold stop_event_is_set. run_monad. by rewrite Hclear. }
  unfold resume_tick_sleep at 1 3. unfold mbind, M_bind. rewrite Hrun. split.
  - apply poll_loop_resume. exact Hclear.
  - simpl. unfold stop_event_is_set. run_monad. by rewrite Hclear.
Qed.

(** X4 for run-loop 1 when 'auto' is selected at instant 10. *)
Lemma reselected_auto_keeps_old_loop_witness :
  exists w1,
    time_sleep 60 (started calm_noon ∅ [(10, "auto")]) = (Ret tt, w1) /\
    now w1 = 60 /\
    events w1 !! 1%nat = Some true /\
    stop_event w1 = 2%nat /\
    stop_event_is_set w1 = (Ret false, w1) /\
    resume_tick_sleep 3 "06:30:00" "20:15:00" None
      (started calm_noon ∅ [(10, "auto")]) =
      (a ← tick "06:30:00" "20:15:00" None;
       resume_tick_sleep 2 "06:30:00" "20:15:00" a) w1 /\
    fst (resume_tick_sleep 0 "06:30:00" "20:15:00" None
           (started calm_noon ∅ [(10, "auto")])) = OutOfFuel.
Proof.
  apply (reselected_auto_keeps_old_loop 2 "06:30:00" "20:15:00" None 10 []
           (started calm_noon ∅ [(10, "auto")])).
  - vm_compute. lia.
  - reflexivity.
  - vm_compute. discriminate.
  - reflexivity.
Defined.

End MenuSelections.

(** ** Schedules: inverted strings and forgotten dates *)

Section InvertedSchedule.

Lemma ascii_compare_lt_trans (x y z : ascii) :
  Ascii.compare x y = Lt -> Ascii.compare y z = Lt -> Ascii.compare x z = Lt.
Proof.
  unfold Ascii.compare. rewrite !N.compare_lt_iff. lia.
Qed.

Lemma compare_lt_trans (a : string) :
  forall b c, String.compare a b = Lt -> String.compare b c = Lt ->
              String.compare a c = Lt.
Proof.
  induction a as [|x a IH]; intros [|y b] [|z c]; simpl; try congruence.
  destruct (Ascii.compare x y) eqn:Hxy; try discriminate.
  - apply Ascii.compare_eq_iff in Hxy as ->.
    destruct (Ascii.compare y z); try congruence. apply IH.
  - intros _. destruct (Ascii.compare y z) eqn:Hyz; try discriminate.
    + apply Ascii.compare_eq_iff in Hyz as <-. by rewrite Hxy.
    + intros _. by rewrite (ascii_compare_lt_trans x y z).
Qed.

Lemma lt_trans (a b c : string) :
  PyStr.lt a b = true -> PyStr.lt b c = true -> PyStr.lt a c = true.
Proof.
  unfold PyStr.lt, String.ltb. intros Hab Hbc.
  destruct (String.compare a b) eqn:H1; try discriminate.
  destruct (String.compare b c) eqn:H2; try discriminate.
  by rewrite (compare_lt_trans a b c).
Qed.

(** X9: when the sunrise string is not smaller than the sunset string
    (a schedule that ends before it begins, or an empty one) the desired
    theme is 'dark' at every time: such a loop never selects 'light'. *)
Theorem desired_theme_inverted_schedule (sunrise sunset : string) :
  PyStr.lt sunrise sunset = false ->
  forall local_time, desired_theme sunrise local_time sunset = "dark".
Proof.
  intros Hinv local_time. unfold desired_theme.
  destruct (PyStr.lt sunrise local_time) eqn:H1; [|reflexivity].
  destruct (PyStr.lt local_time sunset) eqn:H2; [|reflexivity].
  rewrite (lt_trans _ _ _ H1 H2) in Hinv. discriminate.
Qed.

(** X9 for sunrise 20:15:00 and sunset 06:30:00, at 23:00:00. *)
Lemma desired_theme_inverted_schedule_witness :
  desired_theme "20:15:00" "23:00:00" "06:30:00" = "dark".
Proof.
  apply (desired_theme_inverted_schedule "20:15:00" "06:30:00").
  reflexivity.
Defined.

Lemma sun_time_local_run (sunrise_utc sunset_utc : datetime) (w : World) :
  sun_time_local sunrise_utc sunset_utc w =
    (Ret (match utc_offset (env w) (now w) with
          | None => None
          | Some off =>
              if datetime_in_range (sunrise_utc + off) &&
                 datetime_in_range (sunset_utc + off)
              then Some (strftime_HMS (time_of_day (sunrise_utc + off)),
                         strftime_HMS (time_of_day (sunset_utc + off)))
              else None
          end), w).
Proof.
  unfold sun_time_local, datetime_add. run_monad.
  destruct (utc_offset (env w) (now w)) as [off|]; [|reflexivity].
  destruct (datetime_in_range (sunrise_utc + off)); [|reflexivity].
  destruct (datetime_in_range (sunset_utc + off)); reflexivity.
Qed.

Lemma time_of_day_period (d k : Z) :
  time_of_day (d + 86400 * k) = time_of_day d.
Proof.
  unfold time_of_day. by rewrite (Z.mul_comm 86400 k), Z_mod_plus_full.
Qed.

(** X10: [sun_time_local] returns [None] when the local sunrise or
    sunset would fall outside the range of [datetime], the addition
    having raised [OverflowError].  Within that range the two strings
    depend on the time of day of each instant only: moving the sunrise
    or the sunset by whole days, each by its own number, changes nothing.
    The schedule does not know on which day the sun rises or sets. *)
Theorem sun_time_local_ignores_dates (sunrise_utc sunset_utc k1 k2 off : Z)
    (w : World) :
  utc_offset (env w) (now w) = Some off ->
  (datetime_in_range (sunrise_utc + off) = true ->
   datetime_in_range (sunset_utc + off) = true ->
   sun_time_local sunrise_utc sunset_utc w =
     (Ret (Some (strftime_HMS (time_of_day (sunrise_utc + off)),
                 strftime_HMS (time_of_day (sunset_utc + off)))), w) /\
   (datetime_in_range (sunrise_utc + 86400 * k1 + off) = true ->
    datetime_in_range (sunset_utc + 86400 * k2 + off) = true ->
    sun_time_local (sunrise_utc + 86400 * k1) (sunset_utc + 86400 * k2) w =
      sun_time_local sunrise_utc sunset_utc w)) /\
  (datetime_in_range (sunrise_utc + off) = false \/
   datetime_in_range (sunset_utc + off) = false ->
   fst (sun_time_local sunrise_utc sunset_utc w) = Ret None).
Proof.
  intros Hoff. split.
  - intros H1 H2. split; [by rewrite sun_time_local_run, Hoff, H1, H2|].
    intros H3 H4. rewrite !sun_time_local_run, Hoff, H1, H2, H3, H4. simpl.
    replace (sunrise_utc + 86400 * k1 + off)
      with (sunrise_utc + off + 86400 * k1) by lia.
    replace (sunset_utc + 86400 * k2 + off)
      with (sunset_utc + off + 86400 * k2) by lia.
    by rewrite !time_of_day_period.
  - intros Hout. rewrite sun_time_local_run, Hoff.
    destruct Hout as [-> | ->]; [reflexivity|].
    by rewrite andb_false_r.
Qed.

(** X10: where the UTC offset is zero, a sunrise at 06:30:00 one day
    later and a sunset at 20:15:00 two days later give the same strings;
    where it is three hours, a sunset at [datetime.max] gives [None]. *)
Lemma sun_time_local_ignores_dates_witness :
  sun_time_local (hms 6 30 0 + 86400 * 1) (hms 20 15 0 + 86400 * 2) calm_machine =
    sun_time_local (hms 6 30 0) (hms 20 15 0) calm_machine /\
  fst (sun_time_local (hms 6 30 0) datetime_max
         (started (calm_env (hms 6 30 0, datetime_max) 10800 noon) ∅ [])) =
    Ret None.
Proof.
  split.
  - apply (sun_time_local_ignores_dates (hms 6 30 0) (hms 20 15 0) 1 2 0
             calm_machine); reflexivity.
  - apply (sun_time_local_ignores_dates (hms 6 30 0) datetime_max 0 0 10800
             (started (calm_env (hms 6 30 0, datetime_max) 10800 noon) ∅ []));
      [reflexivity|]. right. reflexivity.
Defined.

End InvertedSchedule.

(** ** Reading the theme and building the tray icon *)

Section TrayIcon.

(** X11: [get_current_theme] never raises and changes nothing but the
    log.  It returns the [AppsUseLightTheme] value of the registry when
    the key opens and the value is read; when the key cannot be opened,
    the query raises or the value is missing it returns [None] and prints
    one line. *)
Theorem get_current_theme_reads_or_none (w : World) :
  exists r w',
    get_current_theme w = (Ret r, w') /\
    registry w' = registry w /\ icon w' = icon w /\
    events w' = events w /\ threads w' = threads w /\ now w' = now w /\
    (raises (env w) (now w) (OpenKey KEY_READ) = false ->
     raises (env w) (now w) (QueryValueEx "AppsUseLightTheme") = false ->
     r = registry w !! "AppsUseLightTheme") /\
    (raises (env w) (now w) (OpenKey KEY_READ) = true \/
     raises (env w) (now w) (QueryValueEx "AppsUseLightTheme") = true ->
     r = None) /\
    length (since w w') = (if r is Some _ then 0 else 1)%nat.
Proof.
  unfold get_current_theme. run_monad. simpl.
  repeat (case_match; simpl in *; simplify_eq);
    eexists _, _; (split; [reflexivity|]); simpl;
    do 5 (split; [reflexivity|]);
    (split; [intros; congruence|]);
    (split; [intros [?|?]; congruence|]);
    unfold since; simpl; rewrite ?drop_app_length, ?drop_all; reflexivity.
Qed.

Lemma get_translations_english (language : string) :
  TRANSLATIONS !! language = None ->
  get_translations language !! "dark" = Some "Dark ☾" /\
  get_translations language !! "light" = Some "Light ☼" /\
  get_translations language !! "automatic" = Some "Automatic" /\
  get_translations language !! "exit" = Some "Exit".
Proof.
  intros Hnone. unfold get_translations. rewrite Hnone.
  repeat split; vm_compute; reflexivity.
Qed.

#[local] Opaque get_translations.

(** X12: when the theme is read but the icon image cannot be loaded,
    [create_tray_icon] raises: the exception of [Image.open] leaves the
    routine, with nothing logged, no icon and no run-loop started. *)
Theorem create_tray_icon_image_failure (value : Z) (w : World) :
  fst (get_current_theme w) = Ret (Some value) ->
  raises (env w) (now w)
    (ImageOpen (if value =? 0 then "lib/icon_dark.png"
                else "lib/icon_light.png")) = true ->
  exists w',
    create_tray_icon w =
      (Raise (OSError (ImageOpen (if value =? 0 then "lib/icon_dark.png"
                                  else "lib/icon_light.png"))), w') /\
    since w w' = [] /\ icon w' = icon w /\
    threads w' = threads w /\ stop_event w' = stop_event w.
Proof.
  destruct (get_current_theme_run w) as (r & w1 & Hget & Hsome & _).
  unfold create_tray_icon, mbind, M_bind. rewrite Hget. simpl.
  intros [= ->] Hopen. rewrite (Hsome (mk_is_Some _ _ eq_refl)).
  unfold Image_open. run_monad.
  assert (Hpath : "lib/icon_" +:+ (if value =? 0 then "dark" else "light")
                    +:+ ".png" =
                  if value =? 0 then "lib/icon_dark.png"
                  else "lib/icon_light.png")
    by (destruct (value =? 0); reflexivity).
  rewrite Hpath, Hopen. exists w. split; [reflexivity|].
  unfold since. rewrite drop_all. repeat split.
Qed.

(** X12 on a light-themed machine where no image can be loaded. *)
Lemma create_tray_icon_image_failure_witness :
  exists w',
    create_tray_icon
      (boot (mkEnv (fun _ c => if c is ImageOpen _ then true else false)
                   (fun _ => None) (fun _ _ => None) (fun _ => None)
                   noon None)
            {["AppsUseLightTheme" := 1]} []) =
      (Raise (OSError (ImageOpen "lib/icon_light.png")), w') /\
    since (boot (mkEnv (fun _ c => if c is ImageOpen _ then true else false)
                       (fun _ => None) (fun _ _ => None) (fun _ => None)
                       noon None)
                {["AppsUseLightTheme" := 1]} []) w' = [] /\
    icon w' = None /\ threads w' = [true] /\ stop_event w' = 0%nat.
Proof.
  apply (create_tray_icon_image_failure 1
           (boot (mkEnv (fun _ c => if c is ImageOpen _ then true else false)
                        (fun _ => None) (fun _ _ => None) (fun _ => None)
                        noon None)
                 {["AppsUseLightTheme" := 1]} []));
    vm_compute; reflexivity.
Defined.

(** X13: when the theme is read and the icon image loads,
    [create_tray_icon] builds the menu with the labels of the detected
    language in the order dark, light, automatic, exit, then starts the
    automatic mode and only then runs the icon.  When the language cannot
    be detected or has no table, the labels are the English ones. *)
Theorem create_tray_icon_menu (value : Z) (w : World) :
  fst (get_current_theme w) = Ret (Some value) ->
  raises (env w) (now w)
    (ImageOpen (if value =? 0 then "lib/icon_dark.png"
                else "lib/icon_light.png")) = false ->
  exists dark light automatic exit w',
    create_tray_icon w = (Ret tt, w') /\
    map what (since w w') =
      [EvMenu [dark; light; automatic; exit]; EvPrint MsgAutoEnabled;
       EvThreadStart (length (threads w)); EvIconRun] /\
    get_translations (default "en" (ui_language (env w))) !! "dark" = Some dark /\
    get_translations (default "en" (ui_language (env w))) !! "light" = Some light /\
    get_translations (default "en" (ui_language (env w))) !! "automatic" =
      Some automatic /\
    get_translations (default "en" (ui_language (env w))) !! "exit" = Some exit /\
    (TRANSLATIONS !! default "en" (ui_language (env w)) = None ->
     [dark; light; automatic; exit] =
       ["Dark ☾"; "Light ☼"; "Automatic"; "Exit"]).
Proof.
  destruct (get_current_theme_run w) as (r & w1 & Hget & Hsome & _).
  unfold create_tray_icon, mbind, M_bind. rewrite Hget. simpl.
  intros [= ->] Hopen. rewrite (Hsome (mk_is_Some _ _ eq_refl)).
  unfold Image_open, get_system_language, subscript. run_monad.
  assert (Hpath : "lib/icon_" +:+ (if value =? 0 then "dark" else "light")
                    +:+ ".png" =
                  if value =? 0 then "lib/icon_dark.png"
                  else "lib/icon_light.png")
    by (destruct (value =? 0); reflexivity).
  rewrite Hpath, Hopen. simpl.
  set (language := default "en" (ui_language (env w))).
  destruct (get_translations_complete language "dark") as [d Hd];
    [repeat constructor|].
  destruct (get_translations_complete language "light") as [l Hl];
    [repeat constructor|].
  destruct (get_translations_complete language "automatic") as [a Ha];
    [repeat constructor|].
  destruct (get_translations_complete language "exit") as [e He];
    [repeat constructor|].
  rewrite Hd, Hl, Ha, He. simpl.
  exists d, l, a, e. eexists. split; [reflexivity|].
  split.
  { unfold since. simpl. rewrite <- !(assoc_L (++)).
    by rewrite drop_app_length. }
  do 4 (split; [reflexivity|]).
  intros Hnone.
  destruct (get_translations_english language Hnone) as (Hd' & Hl' & Ha' & He').
  congruence.
Qed.

(** X13 on an English-speaking machine whose theme is light. *)
Lemma create_tray_icon_menu_witness :
  (exists dark light automatic exit w',
     create_tray_icon (boot calm_noon {["AppsUseLightTheme" := 1]} []) =
       (Ret tt, w') /\
     map what (since (boot calm_noon {["AppsUseLightTheme" := 1]} []) w') =
       [EvMenu [dark; light; automatic; exit]; EvPrint MsgAutoEnabled;
        EvThreadStart 1; EvIconRun] /\
     [dark; light; automatic; exit] =
       ["Dark ☾"; "Light ☼"; "Automatic"; "Exit"]).
Proof.
  destruct (create_tray_icon_menu 1
              (boot calm_noon {["AppsUseLightTheme" := 1]} []))
    as (d & l & a & e & w' & Hrun & Hlog & Hd & Hl & Ha & He & _);
    [vm_compute; reflexivity|vm_compute; reflexivity|].
  exists d, l, a, e, w'. split; [exact Hrun|]. split; [exact Hlog|].
  vm_compute in Hd, Hl, Ha, He. congruence.
Defined.

End TrayIcon.

(** ** The translations and any number of selections *)

Section MenuAtLarge.

(** X15: [get_translations] returns the table of the language when
    [TRANSLATIONS] has one and the English table otherwise, and the table
    it returns always has the four labels of the menu: looking one up
    never raises [KeyError], whatever the language. *)
Theorem get_translations_never_misses (language k : string) (w : World) :
  k ∈ ["dark"; "light"; "automatic"; "exit"] ->
  (exists label, subscript (get_translations language) k w = (Ret label, w)) /\
  (TRANSLATIONS !! language = None ->
   get_translations language = get_translations "en") /\
  (forall t, TRANSLATIONS !! language = Some t -> get_translations language = t).
Proof.
  intros Hk. split; [|split].
  - destruct (get_translations_complete language k Hk) as [label Hlabel].
    exists label. unfold subscript. by rewrite Hlabel.
  - intros Hnone. unfold get_translations. by rewrite Hnone.
  - intros t Ht. unfold get_translations. by rewrite Ht.
Qed.

(** X15 for the exit label in a language without a table. *)
Lemma get_translations_never_misses_witness :
  exists label,
    subscript (get_translations "xx") "exit" calm_machine =
      (Ret label, calm_machine).
Proof.
  apply (get_translations_never_misses "xx" "exit" calm_machine).
  repeat constructor.
Defined.

Lemma select_theme_step (theme : string) (w : World) :
  exists l w',
    select_theme theme w = (Ret tt, w') /\
    self w' = self w /\
    log w' = log w ++ l /\ Forall (fun x => who x = self w) l /\
    applied_themes (map what l) =
      (if decide (theme = "auto") then [] else [theme]) /\
    length (threads w') =
      (length (threads w) + if decide (theme = "auto") then 1 else 0)%nat /\
    length (events w') =
      (length (events w) + if decide (theme = "auto") then 1 else 0)%nat.
Proof.
  destruct (decide (theme = "auto")) as [->|Hm].
  - eexists _, _. split; [reflexivity|]. simpl.
    split; [reflexivity|]. split.
    + rewrite <- !(assoc_L (++)). simpl. reflexivity.
    + split; [repeat constructor|]. split; [reflexivity|].
      rewrite !length_app, length_insert. split; reflexivity.
  - pose proof Hm as Hm'. apply String.eqb_neq in Hm'.
    unfold select_theme, stop_event_set, PyStr.eq. rewrite Hm'.
    run_monad. simpl.
    match goal with |- context [set_windows_theme theme ?w1] =>
      destruct (set_windows_theme_run theme w1)
        as (l & w' & Hrun & Hc & Hlog & Hwho & Ha & _)
    end.
    rewrite Hrun. destruct Hc as (_ & Hev & _ & Ht & _ & Hself & _).
    simpl in *. eexists _, w'. split; [reflexivity|]. split; [exact Hself|].
    split; [rewrite Hlog, <- !(assoc_L (++)); reflexivity|].
    split; [repeat constructor; exact Hwho|].
    split; [simpl; by rewrite Ha|].
    rewrite Ht, Hev, length_insert. split; lia.
Qed.

(** X16: any list of selections from the menu is served without an
    exception.  Each 'auto' in it adds one event and one thread, and
    nothing takes one away; an event that was set stays set; and
    [set_windows_theme] is called once for each other selection, in
    order, with the selected theme. *)
Theorem menu_selections_compose (due : list (Z * string)) :
  forall w, exists w',
    run_callbacks due w = (Ret tt, w') /\
    length (threads w') =
      (length (threads w) + length (filter (fun p => p.2 = "auto") due))%nat /\
    length (events w') =
      (length (events w) + length (filter (fun p => p.2 = "auto") due))%nat /\
    (forall e, events w !! e = Some true -> events w' !! e = Some true) /\
    calls_during (self w) w w' =
      filter (fun theme => theme <> "auto") (map snd due).
Proof.
  assert (Hgen : forall w, exists l w',
             run_callbacks due w = (Ret tt, w') /\
             self w' = self w /\
             log w' = log w ++ l /\ Forall (fun x => who x = self w) l /\
             applied_themes (map what l) =
               filter (fun theme => theme <> "auto") (map snd due) /\
             length (threads w') =
               (length (threads w) +
                length (filter (fun p => p.2 = "auto") due))%nat /\
             length (events w') =
               (length (events w) +
                length (filter (fun p => p.2 = "auto") due))%nat).
  { induction due as [|[t theme] due IH]; intros w.
    - exists [], w. simpl. rewrite (right_id_L [] (++)).
      repeat split; first [constructor|lia].
    - simpl run_callbacks. run_monad. simpl.
      match goal with |- context [select_theme theme ?w1] =>
        destruct (select_theme_step theme w1)
          as (l1 & w1' & Hrun & Hself & Hlog & Hwho & Ha & Ht & Hev)
      end.
      rewrite Hrun. simpl in *.
      destruct (IH w1') as (l2 & w2 & Hrun2 & Hself2 & Hlog2 & Hwho2 & Ha2
                              & Ht2 & Hev2).
      rewrite Hrun2. exists (l1 ++ l2), w2. split; [reflexivity|].
      split; [congruence|].
      split; [rewrite Hlog2, Hlog, (assoc_L (++)); reflexivity|].
      split; [apply Forall_app; split; [exact Hwho|by rewrite <- Hself]|].
      rewrite map_app, applied_themes_app, Ha, Ha2, Ht2, Hev2, Ht, Hev.
      destruct (decide (theme = "auto")) as [->|Hm].
      + rewrite filter_cons_False by (simpl; tauto).
        rewrite (filter_cons_True (fun p : Z * string => p.2 = "auto"))
          by reflexivity.
        simpl. repeat split; lia.
      + rewrite filter_cons_True by exact Hm.
        rewrite (filter_cons_False (fun p : Z * string => p.2 = "auto"))
          by exact Hm.
        simpl. repeat split; lia. }
  intros w. destruct (Hgen w) as (l & w' & Hrun & _ & Hlog & Hwho & Ha & Ht & Hev).
  destruct (run_callbacks_run due w) as (l' & w'' & Hrun' & _ & _ & _ & _ & _ & Hmono).
  rewrite Hrun in Hrun'. injection Hrun' as <-.
  exists w'. split; [exact Hrun|]. split; [exact Ht|]. split; [exact Hev|].
  split; [exact Hmono|].
  unfold calls_during. by rewrite (since_app _ _ _ Hlog), (events_of_own _ _ Hwho).
Qed.

End MenuAtLarge.
